(** * A gradebook manager: courses, assignments, grades and their CSV stores

    Shallow embedding of [logic.py].  The three classes of the program are
    three modules below the two record types they work on:

    - [Assignment] and [Course]: the domain model, pure arithmetic on
      binary64 floating-point numbers (Python's [float]);
    - [DataManager]: the two CSV stores, as the rows they hold;
    - [GradeCalculator]: the collection of courses, identifier generation,
      validation, and the full save after every change.

    Python objects have an identity and [Course] objects are updated in
    place, so [Course] objects live in a heap and are named by references;
    [x in list] and [list.remove(x)] compare by identity, as no class of the
    program defines [__eq__]. *)

From Stdlib Require Import String Ascii ZArith List Lia Bool Floats.
From stdpp Require Import base option list.
Import ListNotations.

Local Open Scope string_scope.
Local Open Scope Z_scope.
Local Open Scope list_scope.

(** ** Python built-ins used by the program *)

(** Characters are one-byte code points; [is_space] is [str.isspace] on
    them: tab to carriage return, the four separators 28-31, the space,
    NEL (133) and the no-break space (160). *)
Definition is_space (c : ascii) : bool :=
  let n := N_of_ascii c in
  ((9 <=? n) && (n <=? 13) || (28 <=? n) && (n <=? 32)
   || (n =? 133) || (n =? 160))%N.

(** [s.lstrip()] *)
Fixpoint lstrip (s : string) : string :=
  match s with
  | EmptyString => EmptyString
  | String c s' => if is_space c then lstrip s' else s
  end.

(** [s.rstrip()] *)
Fixpoint rstrip (s : string) : string :=
  match s with
  | EmptyString => EmptyString
  | String c s' =>
      match rstrip s' with
      | EmptyString => if is_space c then EmptyString else String c EmptyString
      | r => String c r
      end
  end.

(** [s.strip()] *)
Definition strip (s : string) : string := rstrip (lstrip s).

(** [max(l, default=d)] on integers. *)
Definition py_max (l : list Z) (d : Z) : Z :=
  match l with
  | [] => d
  | x :: xs => fold_left Z.max xs x
  end.

(** [sum(l)] on floats: the items are added from the left, starting from
    the integer [0], which the first addition turns into [0.0]. *)
Definition py_sum (l : list float) : float :=
  fold_left PrimFloat.add l 0%float.

(** [float(n)] for a length [n]; exact below [2^53]. *)
Definition float_of_len (n : nat) : float :=
  PrimFloat.of_uint63 (Uint63.of_Z (Z.of_nat n)).

(** The first item of [l] that satisfies [p], as a [for]/[break] loop finds
    it. *)
Fixpoint first_match {A} (p : A -> bool) (l : list A) : option A :=
  match l with
  | [] => None
  | x :: xs => if p x then Some x else first_match p xs
  end.

(** [x in l] and [l.remove(x)] for objects compared by the key [k]. *)
Definition py_in {A} (k : A -> nat) (x : A) (l : list A) : bool :=
  existsb (fun y => Nat.eqb (k y) (k x)) l.

Fixpoint py_remove {A} (k : A -> nat) (x : A) (l : list A) : list A :=
  match l with
  | [] => []
  | y :: ys => if Nat.eqb (k y) (k x) then ys else y :: py_remove k x ys
  end.

(** ** Domain model *)

Module Assignment.

(** [obj] is the identity of the Python object; the other fields are the
    attributes set by [__init__].  An assignment is never updated. *)
Record t := mk {
  obj : nat;
  assignment_id : Z;
  course_id : Z;
  name : string;
  score : float;
  max_points : float
}.

Definition get_percentage (self : t) : float :=
  if (max_points self =? 0)%float then 0%float
  else (score self / max_points self * 100)%float.

End Assignment.

Module Course.

Record t := mk {
  course_id : Z;
  name : string;
  assignments : list Assignment.t
}.

(** [Course(course_id, name)] *)
Definition init (course_id : Z) (name : string) : t := mk course_id name [].

Definition add_assignment (self : t) (a : Assignment.t) : t :=
  mk (course_id self) (name self) (assignments self ++ [a]).

Definition remove_assignment (self : t) (a : Assignment.t) : t :=
  if py_in Assignment.obj a (assignments self)
  then mk (course_id self) (name self)
          (py_remove Assignment.obj a (assignments self))
  else self.

Definition calculate_grade (self : t) : float :=
  match assignments self with
  | [] => 0%float
  | _ =>
      let total_earned := py_sum (map Assignment.score (assignments self)) in
      let total_possible :=
        py_sum (map Assignment.max_points (assignments self)) in
      if (total_possible =? 0)%float then 0%float
      else (total_earned / total_possible * 100)%float
  end.

Definition get_letter_grade (self : t) : string :=
  let percentage := calculate_grade self in
  if (90 <=? percentage)%float then "A"
  else if (80 <=? percentage)%float then "B"
  else if (70 <=? percentage)%float then "C"
  else if (60 <=? percentage)%float then "D"
  else "F".

(** [grade_scale.get(letter, 0.0)] *)
Definition grade_scale (letter : string) : float :=
  if String.eqb letter "A" then 4%float
  else if String.eqb letter "B" then 3%float
  else if String.eqb letter "C" then 2%float
  else if String.eqb letter "D" then 1%float
  else 0%float.

Definition calculate_gpa (self : t) : float :=
  grade_scale (get_letter_grade self).

End Course.

(** ** Persistence layer *)

Module DataManager.

(** A store is modelled by the data rows it holds, below its header, and
    a field by the value it denotes: the [csv] module's quoting and the
    conversions [str], [int] and [float] belong to the language, and what
    [writerow] was handed is what [DictReader] and [int]/[float] give
    back.  A store that does not exist is [None]. *)
Abbreviation course_row := (Z * string)%type.
Abbreviation assignment_row := (Z * Z * string * float * float)%type.

Record t := mk {
  courses_file : option (list course_row);
  assignments_file : option (list assignment_row)
}.

(** [create_files_if_needed]: a missing store is created with its header
    and no row. *)
Definition create_files_if_needed (fs : t) : t :=
  mk (Some (default [] (courses_file fs)))
     (Some (default [] (assignments_file fs))).

(** [load_courses]: one new [Course] per row; [FileNotFoundError] gives
    the empty list. *)
Definition load_courses (fs : t) : list Course.t :=
  match courses_file fs with
  | Some rows => map (fun r : course_row => Course.init (fst r) (snd r)) rows
  | None => []
  end.

Definition assignment_of_row (o : nat) (r : assignment_row) : Assignment.t :=
  let '(aid, cid, nm, sc, mp) := r in Assignment.mk o aid cid nm sc mp.

(** The objects built from [rows], the first with identity [o]. *)
Fixpoint assignments_of_rows (o : nat) (rows : list assignment_row)
  : list Assignment.t :=
  match rows with
  | [] => []
  | r :: rs => assignment_of_row o r :: assignments_of_rows (S o) rs
  end.

(** [load_assignments]: one new [Assignment] per row, the first with
    identity [o]. *)
Definition load_assignments (fs : t) (o : nat) : list Assignment.t :=
  match assignments_file fs with
  | Some rows => assignments_of_rows o rows
  | None => []
  end.

Definition row_of_course (c : Course.t) : course_row :=
  (Course.course_id c, Course.name c).

Definition row_of_assignment (a : Assignment.t) : assignment_row :=
  (Assignment.assignment_id a, Assignment.course_id a, Assignment.name a,
   Assignment.score a, Assignment.max_points a).

(** The rows written for a collection of courses. *)
Definition course_rows (courses : list Course.t) : list course_row :=
  map row_of_course courses.

Definition assignment_rows (courses : list Course.t) : list assignment_row :=
  flat_map (fun c => map row_of_assignment (Course.assignments c)) courses.

(** [save_all_courses]: the store is overwritten. *)
Definition save_all_courses (fs : t) (courses : list Course.t) : t :=
  mk (Some (course_rows courses)) (assignments_file fs).

(** [save_all_assignments]: the store is overwritten with the rows of
    every course's assignments, course after course. *)
Definition save_all_assignments (fs : t) (courses : list Course.t) : t :=
  mk (courses_file fs) (Some (assignment_rows courses)).

End DataManager.

(** ** Orchestration layer *)

Module GradeCalculator.

(** A reference to a [Course] object: its index in the heap. *)
Definition cref : Type := nat.

Inductive exn :=
| ValueError (msg : string)
| AttributeError.

Inductive outcome (A : Type) :=
| Return (a : A)
| Raise (e : exn).
Arguments Return {A} a.
Arguments Raise {A} e.

(** A write of a whole store, as the file system sees it. *)
Inductive io_event :=
| WriteCourses (rows : list DataManager.course_row)
| WriteAssignments (rows : list DataManager.assignment_row).

(** The state of the process: every [Course] object ever built ([heap]),
    the next free identity for an [Assignment] object, [self.courses], the
    two stores and the trace of the writes made, the latest first. *)
Record t := mk {
  heap : list Course.t;
  next_obj : nat;
  courses : list cref;
  files : DataManager.t;
  io : list io_event
}.

(** The [Course] objects of a list of references. *)
Definition objects (h : list Course.t) (l : list cref) : list Course.t :=
  omap (fun c => h !! c) l.

(** [self.courses], dereferenced. *)
Definition course_objects (self : t) : list Course.t :=
  objects (heap self) (courses self).

(** Links one loaded assignment: the inner [for]/[break] loop of
    [load_all_data]. *)
Definition link (h : list Course.t) (cs : list cref) (a : Assignment.t)
  : list Course.t :=
  match first_match
          (fun c => match h !! c with
                    | Some co => Z.eqb (Course.course_id co)
                                       (Assignment.course_id a)
                    | None => false
                    end) cs with
  | Some c => alter (fun co => Course.add_assignment co a) c h
  | None => h
  end.

Definition load_all_data (self : t) : t :=
  let loaded := DataManager.load_courses (files self) in
  let cs := seq (length (heap self)) (length loaded) in
  let h := heap self ++ loaded in
  let assignments :=
    DataManager.load_assignments (files self) (next_obj self) in
  mk (fold_left (fun h a => link h cs a) assignments h)
     (next_obj self + length assignments)%nat
     cs (files self) (io self).

Definition save_all_data (self : t) : t :=
  let cs := course_objects self in
  let fs1 := DataManager.save_all_courses (files self) cs in
  let fs2 := DataManager.save_all_assignments fs1 cs in
  mk (heap self) (next_obj self) (courses self) fs2
     (WriteAssignments (DataManager.assignment_rows cs)
      :: WriteCourses (DataManager.course_rows cs) :: io self).

(** [GradeCalculator()] in a process that finds the stores [fs]. *)
Definition init (fs : DataManager.t) : t :=
  load_all_data (mk [] 0 [] (DataManager.create_files_if_needed fs) []).

Definition get_all_courses (self : t) : list cref := courses self.

Definition add_course (self : t) (name : string) : outcome cref * t :=
  if String.eqb (strip name) "" then
    (Raise (ValueError "Course name cannot be empty"), self)
  else
    let new_id := py_max (map Course.course_id (course_objects self)) 0 + 1 in
    let course := length (heap self) in
    let self1 := mk (heap self ++ [Course.init new_id (strip name)])
                    (next_obj self) (courses self ++ [course])
                    (files self) (io self) in
    (Return course, save_all_data self1).

Definition delete_course (self : t) (course : cref) : t :=
  if py_in id course (courses self) then
    save_all_data (mk (heap self) (next_obj self)
                      (py_remove id course (courses self))
                      (files self) (io self))
  else self.

Definition add_assignment (self : t) (course : cref) (name : string)
    (score max_points : float) : outcome Assignment.t * t :=
  if String.eqb (strip name) "" then
    (Raise (ValueError "Assignment name cannot be empty"), self)
  else if (max_points <=? 0)%float then
    (Raise (ValueError "Max points must be greater than 0"), self)
  else if (score <? 0)%float then
    (Raise (ValueError "Score cannot be negative"), self)
  else if (max_points <? score)%float then
    (Raise (ValueError "Score cannot exceed max points"), self)
  else
    let all_assignments := flat_map Course.assignments (course_objects self) in
    let new_id := py_max (map Assignment.assignment_id all_assignments) 0 + 1 in
    match heap self !! course with
    | None => (Raise AttributeError, self)
    | Some co =>
        let assignment :=
          Assignment.mk (next_obj self) new_id (Course.course_id co)
                        (strip name) score max_points in
        let self1 := mk (<[course := Course.add_assignment co assignment]>
                           (heap self))
                        (S (next_obj self)) (courses self)
                        (files self) (io self) in
        (Return assignment, save_all_data self1)
    end.

Definition delete_assignment (self : t) (course : cref)
    (assignment : Assignment.t) : outcome unit * t :=
  match heap self !! course with
  | None => (Raise AttributeError, self)
  | Some co =>
      let self1 := mk (<[course := Course.remove_assignment co assignment]>
                         (heap self))
                      (next_obj self) (courses self) (files self) (io self) in
      (Return tt, save_all_data self1)
  end.

Definition calculate_overall_gpa (self : t) : float :=
  match courses self with
  | [] => 0%float
  | _ =>
      let total_gpa := py_sum (map Course.calculate_gpa (course_objects self)) in
      (total_gpa / float_of_len (length (courses self)))%float
  end.

End GradeCalculator.

(** ** Histories of calls *)

(** The four calls that change the collection, and what a sequence of them
    does to the state.  The result of a call is dropped: a call that raises
    leaves the state as it was. *)
Inductive op :=
| AddCourse (name : string)
| DeleteCourse (course : GradeCalculator.cref)
| AddAssignment (course : GradeCalculator.cref) (name : string)
                (score max_points : float)
| DeleteAssignment (course : GradeCalculator.cref) (assignment : Assignment.t).

Definition step (self : GradeCalculator.t) (o : op) : GradeCalculator.t :=
  match o with
  | AddCourse name => snd (GradeCalculator.add_course self name)
  | DeleteCourse course => GradeCalculator.delete_course self course
  | AddAssignment course name score max_points =>
      snd (GradeCalculator.add_assignment self course name score max_points)
  | DeleteAssignment course assignment =>
      snd (GradeCalculator.delete_assignment self course assignment)
  end.

Definition run (self : GradeCalculator.t) (ops : list op) : GradeCalculator.t :=
  fold_left step ops self.

(** The identifier of the course that the call [o] takes out of the
    collection, if it does. *)
Definition deleted_by (self : GradeCalculator.t) (o : op) : list Z :=
  match o with
  | DeleteCourse course =>
      if py_in id course (GradeCalculator.courses self)
      then map Course.course_id (GradeCalculator.objects
                                   (GradeCalculator.heap self) [course])
      else []
  | _ => []
  end.

(** The identifiers of the courses deleted along a history. *)
Fixpoint deleted_ids (self : GradeCalculator.t) (ops : list op) : list Z :=
  match ops with
  | [] => []
  | o :: os => deleted_by self o ++ deleted_ids (step self o) os
  end.

(** The identifiers of the courses of the collection. *)
Definition course_ids (self : GradeCalculator.t) : list Z :=
  map Course.course_id (GradeCalculator.course_objects self).

(** A name with a whitespace character in front, or at its end. *)
Definition leading_space (s : string) : bool :=
  match s with
  | EmptyString => false
  | String c _ => is_space c
  end.

Fixpoint trailing_space (s : string) : bool :=
  match s with
  | EmptyString => false
  | String c EmptyString => is_space c
  | String _ s' => trailing_space s'
  end.

Definition trimmed (s : string) : Prop :=
  leading_space s = false /\ trailing_space s = false.

(** Every name held by the process, in the heap or in a store, is
    [trimmed]. *)
Definition course_trimmed (co : Course.t) : Prop :=
  trimmed (Course.name co) /\
  Forall (fun a => trimmed (Assignment.name a)) (Course.assignments co).

Definition names_trimmed (self : GradeCalculator.t) : Prop :=
  Forall course_trimmed (GradeCalculator.heap self) /\
  Forall (fun r : DataManager.course_row => trimmed (snd r))
         (default [] (DataManager.courses_file (GradeCalculator.files self))) /\
  Forall (fun r : DataManager.assignment_row => trimmed (snd (fst (fst r))))
         (default []
            (DataManager.assignments_file (GradeCalculator.files self))).

(** No name in the stores [fs] has whitespace in front or at its end. *)
Definition stores_trimmed (fs : DataManager.t) : Prop :=
  Forall (fun r : DataManager.course_row => trimmed (snd r))
         (default [] (DataManager.courses_file fs)) /\
  Forall (fun r : DataManager.assignment_row => trimmed (snd (fst (fst r))))
         (default [] (DataManager.assignments_file fs)).

(** ** Loading and saving *)

(** The position of the first row of the courses store whose identifier is
    [cid]. *)
Fixpoint first_index (cid : Z) (rows : list DataManager.course_row)
  : option nat :=
  match rows with
  | [] => None
  | r :: rs => if Z.eqb (fst r) cid then Some 0%nat
               else option_map S (first_index cid rs)
  end.

(** The assignment [a] belongs to the course read from the row at position
    [i]. *)
Definition linked_to (rows : list DataManager.course_row) (i : nat)
    (a : Assignment.t) : bool :=
  match first_index (Assignment.course_id a) rows with
  | Some j => Nat.eqb j i
  | None => false
  end.

(** The courses read from the rows [crows] once the assignments [done] are
    linked to them. *)
Definition linked_courses (crows : list DataManager.course_row)
    (done : list Assignment.t) : list Course.t :=
  imap (fun i r => Course.mk (fst r) (snd r)
                     (List.filter (linked_to crows i) done)) crows.

(** What a collection holds, object identities left out: per course, its
    identifier, its name and the rows of its assignments. *)
Definition snapshot (self : GradeCalculator.t)
  : list (Z * string * list DataManager.assignment_row) :=
  map (fun co => (Course.course_id co, Course.name co,
                  map DataManager.row_of_assignment (Course.assignments co)))
      (GradeCalculator.course_objects self).

(** A valid collection: no two courses share an identifier, and every
    assignment carries the identifier of the course that holds it. *)
Definition valid_collection (self : GradeCalculator.t) : Prop :=
  NoDup (course_ids self) /\
  Forall (fun co =>
            Forall (fun a => Assignment.course_id a = Course.course_id co)
                   (Course.assignments co))
         (GradeCalculator.course_objects self).

(** ** Binary64 numbers *)

(** The specification-level number [r] lies between 0 and the positive
    number [mB * 2^eB]. *)
Definition SF_in_range (mB : positive) (eB : Z) (r : spec_float) : Prop :=
  match r with
  | S754_zero _ => True
  | S754_finite false m e => e < eB \/ (e = eB /\ (m <= mB)%positive)
  | _ => False
  end.

(** What every call keeps: the references of the collection are objects
    of the heap, no two courses of the collection share an identifier, and
    every assignment of every course object carries that course's
    identifier. *)
Definition well_formed (self : GradeCalculator.t) : Prop :=
  Forall (fun c => (c < length (GradeCalculator.heap self))%nat)
         (GradeCalculator.courses self) /\
  NoDup (course_ids self) /\
  Forall (fun co =>
            Forall (fun a => Assignment.course_id a = Course.course_id co)
                   (Course.assignments co))
         (GradeCalculator.heap self).

(** The stores hold the rows of the collection, and nothing else. *)
Definition mirrors (self : GradeCalculator.t) : Prop :=
  GradeCalculator.files self
  = DataManager.mk
      (Some (DataManager.course_rows (GradeCalculator.course_objects self)))
      (Some (DataManager.assignment_rows
               (GradeCalculator.course_objects self))).

(** The identifiers of the assignments of a list of course objects, and of
    the collection. *)
Definition assignment_ids_of (os : list Course.t) : list Z :=
  map Assignment.assignment_id (flat_map Course.assignments os).

Definition assignment_ids (self : GradeCalculator.t) : list Z :=
  assignment_ids_of (GradeCalculator.course_objects self).

(** The collection names each of its objects once, and no two of its
    assignments share an identifier. *)
Definition ids_unique (self : GradeCalculator.t) : Prop :=
  Forall (fun c => (c < length (GradeCalculator.heap self))%nat)
         (GradeCalculator.courses self) /\
  NoDup (GradeCalculator.courses self) /\
  NoDup (assignment_ids self).

(** * Example data *)

Local Open Scope float_scope.

(** The binary64 numbers nearest to 89.999 and 59.999, as Python reads the
    two literals. *)
Definition grade_89_999 : float := 0x1.67fef9db22d0ep+6.
Definition grade_59_999 : float := 0x1.dffdf3b645a1dp+5.

(** The binary64 number nearest to 0.01. *)
Definition one_cent : float := 0x1.47ae147ae147bp-7.

(** The three courses of the boundary cases: one assignment each. *)
Definition course_90 : Course.t :=
  Course.mk 1 "Algebra" [Assignment.mk 0 1 1 "HW1" 9 10].
Definition course_89_999 : Course.t :=
  Course.mk 2 "Biology" [Assignment.mk 1 2 2 "HW1" grade_89_999 100].
Definition course_59_999 : Course.t :=
  Course.mk 3 "Chemistry" [Assignment.mk 2 3 3 "HW1" grade_59_999 100].

(** The course of the worked example: 8 of 10 and 18 of 20. *)
Definition course_hw : Course.t :=
  Course.mk 1 "Algorithms"
    [Assignment.mk 0 1 1 "HW1" 8 10; Assignment.mk 1 2 1 "HW2" 18 20].

(** A fresh process on no store, then one course, then its two
    assignments: the worked example. *)
Definition gc0 : GradeCalculator.t :=
  GradeCalculator.init (DataManager.mk None None).
Definition gc1 : GradeCalculator.t :=
  snd (GradeCalculator.add_course gc0 "Algorithms").
Definition gc2 : GradeCalculator.t :=
  snd (GradeCalculator.add_assignment gc1 0%nat "HW1" 8 10).
Definition gc3 : GradeCalculator.t :=
  snd (GradeCalculator.add_assignment gc2 0%nat "HW2" 18 20).

(** Three courses with the letter grades A, B and F: 28 of 30, 12 of 15 and
    no assignment; the assignments of the first two were added in turn. *)
Definition gc_abf : GradeCalculator.t :=
  run gc0 [AddCourse "Algebra"; AddCourse " Biology"; AddCourse "Chemistry ";
           AddAssignment 0%nat "HW1" 9 10; AddAssignment 1%nat " Lab " 8 10;
           AddAssignment 0%nat "HW2" 19 20; AddAssignment 1%nat "Quiz" 4 5].

(** An assignment with an infinite score out of infinitely many points, as
    [float("inf")] gives them. *)
Definition assignment_inf : Assignment.t :=
  Assignment.mk 0 1 1 "Essay" infinity infinity.

(** Stores left by another program, with a course name that is not
    trimmed. *)
Definition stores_spaced : DataManager.t :=
  DataManager.mk (Some [(1%Z, " Algebra ")]) (Some []).

(** Stores with two courses of identifier 1 and an assignment of a course
    7 that does not exist. *)
Definition stores_dangling : DataManager.t :=
  DataManager.mk
    (Some [(1%Z, "Algebra"); (1%Z, "Algebra again"); (2%Z, "Biology")])
    (Some [(1%Z, 1%Z, "HW1", 8, 10); (2%Z, 7%Z, "Lost", 1, 2);
           (3%Z, 2%Z, "Lab", 5, 5)]).

Local Close Scope float_scope.

(** * Properties *)

Import GradeCalculator.

Local Open Scope float_scope.

(** ** Grades *)

(** C5: the letter grade is found by descending thresholds, each inclusive
    on its lower bound, the first that holds winning: a grade of at least 90
    is an A; else at least 80 a B; else at least 70 a C; else at least 60 a
    D; else an F.  A grade of exactly 90.0 is an A, 89.999 a B and 59.999
    an F. *)
Theorem get_letter_grade_thresholds (c : Course.t) :
  let p := Course.calculate_grade c in
  ((90 <=? p) = true -> Course.get_letter_grade c = "A"%string) /\
  ((90 <=? p) = false -> (80 <=? p) = true ->
   Course.get_letter_grade c = "B"%string) /\
  ((90 <=? p) = false -> (80 <=? p) = false -> (70 <=? p) = true ->
   Course.get_letter_grade c = "C"%string) /\
  ((90 <=? p) = false -> (80 <=? p) = false -> (70 <=? p) = false ->
   (60 <=? p) = true -> Course.get_letter_grade c = "D"%string) /\
  ((90 <=? p) = false -> (80 <=? p) = false -> (70 <=? p) = false ->
   (60 <=? p) = false -> Course.get_letter_grade c = "F"%string) /\
  (p = 90 -> Course.get_letter_grade c = "A"%string) /\
  (p = grade_89_999 -> Course.get_letter_grade c = "B"%string) /\
  (p = grade_59_999 -> Course.get_letter_grade c = "F"%string).
Proof.
  unfold Course.get_letter_grade; cbv zeta.
  repeat split; intros;
    repeat match goal with
           | H : _ = true |- _ => rewrite H
           | H : _ = false |- _ => rewrite H
           | H : Course.calculate_grade _ = _ |- _ => rewrite H
           end; reflexivity.
Qed.

Lemma get_letter_grade_thresholds_witness :
  Course.get_letter_grade course_90 = "A"%string /\
  Course.get_letter_grade course_89_999 = "B"%string /\
  Course.get_letter_grade course_59_999 = "F"%string.
Proof.
  split; [| split].
  - apply (get_letter_grade_thresholds course_90). vm_compute. reflexivity.
  - apply (get_letter_grade_thresholds course_89_999). vm_compute. reflexivity.
  - apply (get_letter_grade_thresholds course_59_999). vm_compute. reflexivity.
Defined.

(** C6: the grade of a course is 0.0 when it has no assignment or when its
    maximum points add up to 0, and else the sum of the scores divided by
    the sum of the maximum points, times 100; for 8 of 10 and 18 of 20 it is
    (8+18)/(10+20)*100. *)
Theorem calculate_grade_spec (c : Course.t) :
  let earned := py_sum (map Assignment.score (Course.assignments c)) in
  let possible := py_sum (map Assignment.max_points (Course.assignments c)) in
  (Course.assignments c = [] -> Course.calculate_grade c = 0) /\
  ((possible =? 0) = true -> Course.calculate_grade c = 0) /\
  (Course.assignments c <> [] -> (possible =? 0) = false ->
   Course.calculate_grade c = earned / possible * 100) /\
  Course.calculate_grade course_hw = (8 + 18) / (10 + 20) * 100.
Proof.
  cbv zeta. unfold Course.calculate_grade.
  repeat split.
  - intros ->. reflexivity.
  - intros H. rewrite H. now destruct (Course.assignments c).
  - intros Hne H. rewrite H. now destruct (Course.assignments c).
Qed.

Lemma calculate_grade_spec_witness :
  Course.calculate_grade (Course.mk 4 "Drawing" []) = 0 /\
  Course.calculate_grade
    (Course.mk 4 "Drawing" [Assignment.mk 0 1 4 "Sketch" 0 0]) = 0 /\
  Course.calculate_grade course_hw = (18 + 8) / (20 + 10) * 100.
Proof.
  split; [| split].
  - apply (calculate_grade_spec (Course.mk 4 "Drawing" [])). reflexivity.
  - apply (calculate_grade_spec
             (Course.mk 4 "Drawing" [Assignment.mk 0 1 4 "Sketch" 0 0])).
    reflexivity.
  - destruct (calculate_grade_spec course_hw) as (_ & _ & H & _).
    rewrite H; [reflexivity | discriminate | reflexivity].
Defined.

(** ** Overall GPA *)

Lemma py_in_remove_single (c : cref) : py_remove id c [c] = [].
Proof. simpl. now rewrite Nat.eqb_refl. Qed.

Lemma py_in_single (c : cref) : py_in id c [c] = true.
Proof. unfold py_in; simpl. now rewrite Nat.eqb_refl. Qed.

Lemma float_of_len_spec (n : nat) :
  (Z.of_nat n < 2 ^ 63)%Z ->
  Prim2SF (float_of_len n) = binary_normalize prec emax (Z.of_nat n) 0 false.
Proof.
  intros Hn. unfold float_of_len. rewrite of_uint63_spec. f_equal.
  rewrite Uint63.of_Z_spec. apply Z.mod_small.
  change Uint63.wB with (2 ^ 63)%Z. lia.
Qed.

(** C8: the overall GPA is the sum of the courses' GPAs divided by their
    number, and 0.0 when there is no course; the divisor is the binary64
    number that the number of courses rounds to; for three courses with the
    grades A, B and F it is (4+3+0)/3; once the only course is deleted, the
    collection no longer holds it and the overall GPA is 0.0. *)
Theorem calculate_overall_gpa_mean (self : t) :
  (courses self = [] -> calculate_overall_gpa self = 0) /\
  (courses self <> [] ->
   calculate_overall_gpa self =
   py_sum (map Course.calculate_gpa (course_objects self))
   / float_of_len (length (courses self))) /\
  (forall c, courses self = [c] ->
     get_all_courses (delete_course self c) = [] /\
     calculate_overall_gpa (delete_course self c) = 0) /\
  ((Z.of_nat (length (courses self)) < 2 ^ 63)%Z ->
   Prim2SF (float_of_len (length (courses self)))
   = binary_normalize prec emax (Z.of_nat (length (courses self))) 0 false) /\
  calculate_overall_gpa gc_abf = (4 + 3 + 0) / 3.
Proof.
  unfold calculate_overall_gpa.
  split; [| split; [| split; [| split]]].
  - intros ->. reflexivity.
  - intros H. now destruct (courses self).
  - intros c H. unfold delete_course.
    rewrite H, py_in_single, py_in_remove_single. split; reflexivity.
  - apply float_of_len_spec.
  - vm_compute. reflexivity.
Qed.

Lemma calculate_overall_gpa_mean_witness :
  calculate_overall_gpa gc0 = 0 /\
  calculate_overall_gpa gc3 = 3 / 1 /\
  calculate_overall_gpa gc_abf = 7 / 3 /\
  calculate_overall_gpa (delete_course gc_abf 2%nat) = 7 / 2 /\
  Prim2SF (float_of_len (length (courses gc_abf)))
  = S754_finite false 6755399441055744 (-51) /\
  (get_all_courses (delete_course gc3 0%nat) = [] /\
   calculate_overall_gpa (delete_course gc3 0%nat) = 0).
Proof.
  destruct (calculate_overall_gpa_mean gc0) as (H0 & _ & _).
  destruct (calculate_overall_gpa_mean gc3) as (_ & H3 & Hd & _).
  destruct (calculate_overall_gpa_mean gc_abf) as (_ & H7 & _ & Hn & _).
  destruct (calculate_overall_gpa_mean (delete_course gc_abf 2%nat))
    as (_ & H2 & _).
  split; [| split; [| split; [| split; [| split]]]].
  - apply H0. reflexivity.
  - rewrite H3; [reflexivity | discriminate].
  - rewrite H7; [reflexivity | discriminate].
  - rewrite H2; [reflexivity | discriminate].
  - rewrite Hn; [reflexivity | reflexivity].
  - apply Hd. reflexivity.
Defined.

(** ** Validation *)

Lemma string_eqb_empty (s : string) :
  String.eqb s "" = true <-> s = ""%string.
Proof. apply String.eqb_eq. Qed.

(** C2: [add_assignment] raises [ValueError] exactly when the trimmed name
    is empty, or [max_points <= 0], or [score < 0], or [score > max_points];
    the checks are made in that order, which decides the message; and
    whenever it raises, the state (heap, collection, stores and trace of
    writes) is the one before the call. *)
Theorem add_assignment_validation (self : t) (course : cref) (name : string)
    (score max_points : float) :
  let r := add_assignment self course name score max_points in
  ((exists msg, fst r = Raise (ValueError msg)) <->
   (strip name = ""%string \/ (max_points <=? 0) = true \/
    (score <? 0) = true \/ (max_points <? score) = true)) /\
  (strip name = ""%string ->
   fst r = Raise (ValueError "Assignment name cannot be empty")) /\
  (strip name <> ""%string -> (max_points <=? 0) = true ->
   fst r = Raise (ValueError "Max points must be greater than 0")) /\
  (strip name <> ""%string -> (max_points <=? 0) = false ->
   (score <? 0) = true ->
   fst r = Raise (ValueError "Score cannot be negative")) /\
  (strip name <> ""%string -> (max_points <=? 0) = false ->
   (score <? 0) = false -> (max_points <? score) = true ->
   fst r = Raise (ValueError "Score cannot exceed max points")) /\
  (forall e, fst r = Raise e -> snd r = self).
Proof.
  cbv zeta. unfold add_assignment.
  destruct (String.eqb (strip name) "") eqn:Hn.
  { apply string_eqb_empty in Hn. simpl.
    repeat split; intros; try congruence; eauto. }
  assert (Hne : strip name <> ""%string).
  { intros E. apply string_eqb_empty in E. congruence. }
  destruct (max_points <=? 0) eqn:Hm.
  { simpl. repeat split; intros; try congruence; eauto. }
  destruct (score <? 0) eqn:Hs.
  { simpl. repeat split; intros; try congruence; eauto. }
  destruct (max_points <? score) eqn:Hx.
  { simpl. repeat split; intros; try congruence; eauto. }
  destruct (heap self !! course) as [co |] eqn:Hc; simpl.
  - repeat split; intros; try congruence.
    + destruct H as [msg H]. discriminate.
    + intuition congruence.
  - repeat split; intros; try congruence.
    + destruct H as [msg H]. discriminate.
    + intuition congruence.
Qed.

Lemma add_assignment_validation_witness :
  (fst (add_assignment gc1 0%nat "  " 8 10)
   = Raise (ValueError "Assignment name cannot be empty") /\
   snd (add_assignment gc1 0%nat "  " 8 10) = gc1) /\
  (fst (add_assignment gc1 0%nat "HW1" 8 0)
   = Raise (ValueError "Max points must be greater than 0") /\
   snd (add_assignment gc1 0%nat "HW1" 8 0) = gc1) /\
  (fst (add_assignment gc1 0%nat "HW1" (-1) 10)
   = Raise (ValueError "Score cannot be negative") /\
   snd (add_assignment gc1 0%nat "HW1" (-1) 10) = gc1) /\
  (fst (add_assignment gc1 0%nat "HW1" (10 + one_cent) 10)
   = Raise (ValueError "Score cannot exceed max points") /\
   snd (add_assignment gc1 0%nat "HW1" (10 + one_cent) 10) = gc1).
Proof.
  pose proof (add_assignment_validation gc1 0%nat "  " 8 10) as H1.
  pose proof (add_assignment_validation gc1 0%nat "HW1" 8 0) as H2.
  pose proof (add_assignment_validation gc1 0%nat "HW1" (-1) 10) as H3.
  pose proof (add_assignment_validation gc1 0%nat "HW1" (10 + one_cent) 10) as H4.
  cbv zeta in H1, H2, H3, H4.
  destruct H1 as (_ & H1 & _ & _ & _ & F1).
  destruct H2 as (_ & _ & H2 & _ & _ & F2).
  destruct H3 as (_ & _ & _ & H3 & _ & F3).
  destruct H4 as (_ & _ & _ & _ & H4 & F4).
  assert (N : strip "HW1" <> ""%string) by discriminate.
  split; [split | split; [split | split; [split | split]]].
  - apply H1. reflexivity.
  - eapply F1, H1. reflexivity.
  - apply H2; [exact N | reflexivity].
  - eapply F2, H2; [exact N | reflexivity].
  - apply H3; [exact N | reflexivity | reflexivity].
  - eapply F3, H3; [exact N | reflexivity | reflexivity].
  - apply H4; [exact N | reflexivity | reflexivity | reflexivity].
  - eapply F4, H4; [exact N | reflexivity | reflexivity | reflexivity].
Defined.

(** ** What a deletion writes *)

Lemma py_in_false_remove {A} (k : A -> nat) (x : A) (l : list A) :
  py_in k x l = false -> py_remove k x l = l.
Proof.
  unfold py_in. induction l as [| y ys IH]; simpl; [reflexivity |].
  intros H. apply orb_false_iff in H as [H1 H2].
  rewrite H1. f_equal. auto.
Qed.

Lemma remove_assignment_absent (co : Course.t) (a : Assignment.t) :
  py_in Assignment.obj a (Course.assignments co) = false ->
  Course.remove_assignment co a = co.
Proof. unfold Course.remove_assignment. now intros ->. Qed.

(** C10: [delete_assignment] rewrites both stores whatever the assignment:
    the courses store, then the assignments store, each with the rows of the
    collection; when the assignment is not in the course's list, the heap
    and the collection are the ones before the call, and the two writes are
    made all the same.  [delete_course] of a course that is not in the
    collection changes nothing and writes nothing. *)
Theorem delete_assignment_always_saves (self : t) (course : cref)
    (co : Course.t) (assignment : Assignment.t) :
  heap self !! course = Some co ->
  let self' := snd (delete_assignment self course assignment) in
  fst (delete_assignment self course assignment) = Return tt /\
  io self' =
    WriteAssignments (DataManager.assignment_rows (course_objects self'))
    :: WriteCourses (DataManager.course_rows (course_objects self'))
    :: io self /\
  files self' =
    DataManager.mk
      (Some (DataManager.course_rows (course_objects self')))
      (Some (DataManager.assignment_rows (course_objects self'))) /\
  (py_in Assignment.obj assignment (Course.assignments co) = false ->
   heap self' = heap self /\ courses self' = courses self /\
   next_obj self' = next_obj self) /\
  (forall other, py_in id other (courses self) = false ->
   delete_course self other = self).
Proof.
  intros Hco. cbv zeta. unfold delete_assignment. rewrite Hco. simpl.
  do 3 (split; [reflexivity |]). split.
  - intros Habs. rewrite remove_assignment_absent by exact Habs.
    rewrite list_insert_id by exact Hco. auto.
  - intros other Hother. unfold delete_course. now rewrite Hother.
Qed.

Lemma delete_assignment_always_saves_witness :
  let stranger := Assignment.mk 7 9 1 "Quiz" 1%float 2%float in
  let self' := snd (delete_assignment gc3 0%nat stranger) in
  fst (delete_assignment gc3 0%nat stranger) = Return tt /\
  io self' =
    WriteAssignments (DataManager.assignment_rows (course_objects self'))
    :: WriteCourses (DataManager.course_rows (course_objects self'))
    :: io gc3 /\
  heap self' = heap gc3 /\
  delete_course gc3 5%nat = gc3.
Proof.
  cbv zeta.
  destruct (delete_assignment_always_saves gc3 0%nat course_hw
              (Assignment.mk 7 9 1 "Quiz" 1%float 2%float) eq_refl)
    as (H1 & H2 & _ & H3 & H4).
  split; [exact H1 | split; [exact H2 | split]].
  - apply H3. reflexivity.
  - apply H4. reflexivity.
Defined.

(** ** Course identifiers *)

Lemma fold_max_ge (l : list Z) (x : Z) :
  x <= fold_left Z.max l x /\ forall i, In i l -> i <= fold_left Z.max l x.
Proof.
  revert x. induction l as [| y ys IH]; intros x; simpl.
  - split; [lia | tauto].
  - destruct (IH (Z.max x y)) as [H1 H2]. split; [lia |].
    intros i [-> | Hi]; [lia | auto].
Qed.

Lemma py_max_ge (l : list Z) (d i : Z) : In i l -> i <= py_max l d.
Proof.
  destruct l as [| x xs]; simpl; [tauto |].
  destruct (fold_max_ge xs x) as [H1 H2].
  intros [<- | Hi]; auto.
Qed.

Lemma heap_save_all_data (self : t) : heap (save_all_data self) = heap self.
Proof. reflexivity. Qed.

Lemma courses_save_all_data (self : t) :
  courses (save_all_data self) = courses self.
Proof. reflexivity. Qed.

Lemma lookup_snoc_new {A} (l : list A) (x : A) :
  (l ++ [x]) !! length l = Some x.
Proof. induction l; simpl; auto. Qed.

(** C1, as the program has it: the identifier given to a new course exceeds
    every identifier in the collection, whatever calls came before; and it
    equals the identifier of a course deleted before only when every
    identifier left in the collection is smaller than that one. *)
Theorem add_course_id_exceeds (start : t) (ops : list op) (name : string) :
  strip name <> ""%string ->
  let self := run start ops in
  exists course co,
    add_course self name = (Return course, snd (add_course self name)) /\
    heap (snd (add_course self name)) !! course = Some co /\
    (forall i, In i (course_ids self) -> i < Course.course_id co) /\
    (forall d, In d (deleted_ids start ops) -> Course.course_id co = d ->
               forall i, In i (course_ids self) -> i < d).
Proof.
  intros Hname. cbv zeta. set (self := run start ops).
  unfold add_course.
  destruct (String.eqb (strip name) "") eqn:E.
  { apply string_eqb_empty in E. contradiction. }
  eexists _, _. split; [reflexivity |]. simpl.
  split; [apply lookup_snoc_new |]. simpl.
  assert (Hgt : forall i, In i (course_ids self) ->
                          i < py_max (course_ids self) 0 + 1).
  { intros i Hi. apply (py_max_ge _ 0) in Hi. lia. }
  split; [exact Hgt |].
  intros d _ <- i Hi. now apply Hgt.
Qed.

Lemma add_course_id_exceeds_witness :
  exists course co,
    add_course (run gc0 [AddCourse "A"; AddCourse "B"; DeleteCourse 0%nat]) "C"
    = (Return course,
       snd (add_course
              (run gc0 [AddCourse "A"; AddCourse "B"; DeleteCourse 0%nat])
              "C")) /\
    heap (snd (add_course
                 (run gc0 [AddCourse "A"; AddCourse "B"; DeleteCourse 0%nat])
                 "C")) !! course = Some co /\
    Course.course_id co = 3%Z.
Proof.
  destruct (add_course_id_exceeds gc0
              [AddCourse "A"; AddCourse "B"; DeleteCourse 0%nat] "C")
    as (course & co & H1 & H2 & _); [discriminate |].
  exists course, co. split; [exact H1 | split; [exact H2 |]].
  assert (course = 2%nat) as -> by (vm_compute in H1; now inversion H1).
  vm_compute in H2. now inversion H2.
Defined.

(** C1, as stated, fails: in a fresh collection, add a course (it gets the
    identifier 1), delete it, and add another: it gets 1 again, the
    identifier of the deleted course. *)
Lemma add_course_reuses_deleted_id :
  exists course co,
    fst (add_course (run gc0 [AddCourse "A"; DeleteCourse 0%nat]) "B")
    = Return course /\
    heap (snd (add_course (run gc0 [AddCourse "A"; DeleteCourse 0%nat]) "B"))
      !! course = Some co /\
    In (Course.course_id co)
       (deleted_ids gc0 [AddCourse "A"; DeleteCourse 0%nat]).
Proof.
  exists 1%nat, (Course.mk 1 "B" []).
  split; [reflexivity | split; [reflexivity |]].
  vm_compute. left. reflexivity.
Qed.

(** ** Names *)

Lemma leading_space_lstrip (s : string) : leading_space (lstrip s) = false.
Proof.
  induction s as [| c s IH]; simpl; [reflexivity |].
  destruct (is_space c) eqn:E; simpl; auto.
Qed.

Lemma leading_space_rstrip (s : string) :
  leading_space s = false -> leading_space (rstrip s) = false.
Proof.
  destruct s as [| c s]; simpl; [reflexivity |].
  intros E. destruct (rstrip s); simpl; rewrite ?E; auto.
Qed.

Lemma trailing_space_rstrip (s : string) : trailing_space (rstrip s) = false.
Proof.
  induction s as [| c s IH]; simpl; [reflexivity |].
  destruct (rstrip s) as [| c' r] eqn:E.
  - destruct (is_space c) eqn:Ec; simpl; auto.
  - exact IH.
Qed.

Lemma trimmed_strip (s : string) : trimmed (strip s).
Proof.
  split.
  - apply leading_space_rstrip, leading_space_lstrip.
  - apply trailing_space_rstrip.
Qed.

Lemma Forall_objects (P : Course.t -> Prop) (h : list Course.t) (l : list cref) :
  Forall P h -> Forall P (objects h l).
Proof.
  intros Hh. unfold objects. induction l as [| c l IH]; [constructor |].
  cbn. destruct (h !! c) as [co |] eqn:E; [| exact IH].
  constructor; [| exact IH].
  exact (Forall_lookup_1 _ _ _ _ Hh E).
Qed.

Lemma Forall_course_rows (l : list Course.t) :
  Forall course_trimmed l ->
  Forall (fun r : DataManager.course_row => trimmed (snd r))
         (DataManager.course_rows l).
Proof.
  unfold DataManager.course_rows. induction 1 as [| co l [Hn _] _ IH]; simpl;
    constructor; auto.
Qed.

Lemma Forall_assignment_rows (l : list Course.t) :
  Forall course_trimmed l ->
  Forall (fun r : DataManager.assignment_row => trimmed (snd (fst (fst r))))
         (DataManager.assignment_rows l).
Proof.
  unfold DataManager.assignment_rows.
  induction 1 as [| co l [_ Ha] _ IH]; simpl; [constructor |].
  apply Forall_app. split; [| exact IH].
  induction Ha; simpl; constructor; auto.
Qed.

Lemma names_trimmed_save (self : t) :
  Forall course_trimmed (heap self) -> names_trimmed (save_all_data self).
Proof.
  intros H. split; [exact H |]. simpl. split.
  - apply Forall_course_rows, Forall_objects, H.
  - apply Forall_assignment_rows, Forall_objects, H.
Qed.

Lemma Forall_py_remove {A} (P : A -> Prop) (k : A -> nat) (x : A) (l : list A) :
  Forall P l -> Forall P (py_remove k x l).
Proof.
  induction 1 as [| y ys Hy Hys IH]; simpl; [constructor |].
  destruct (Nat.eqb (k y) (k x)); [exact Hys | constructor; auto].
Qed.

Lemma course_trimmed_remove (co : Course.t) (a : Assignment.t) :
  course_trimmed co -> course_trimmed (Course.remove_assignment co a).
Proof.
  intros [Hn Ha]. unfold Course.remove_assignment.
  destruct (py_in _ _ _); split; simpl; auto using Forall_py_remove.
Qed.

Lemma Forall_lookup_course (P : Course.t -> Prop) (h : list Course.t)
    (c : cref) (co : Course.t) :
  Forall P h -> h !! c = Some co -> P co.
Proof.
  intros Hh E. exact (Forall_lookup_1 _ _ _ _ Hh E).
Qed.

Lemma names_trimmed_step (self : t) (o : op) :
  names_trimmed self -> names_trimmed (step self o).
Proof.
  intros Hs. pose proof Hs as (Hh & _ & _).
  destruct o as [name | course | course name score max_points | course a];
    simpl.
  - unfold add_course. destruct (String.eqb _ _); simpl; [exact Hs |].
    apply names_trimmed_save. simpl. apply Forall_app. split; [exact Hh |].
    repeat constructor; simpl; apply trimmed_strip.
  - unfold delete_course. destruct (py_in _ _ _); [| exact Hs].
    apply names_trimmed_save. exact Hh.
  - unfold add_assignment.
    repeat match goal with
           | |- context [if ?b then _ else _] => destruct b; simpl; [exact Hs |]
           end.
    destruct (heap self !! course) as [co |] eqn:E; simpl; [| exact Hs].
    apply names_trimmed_save. simpl.
    apply Forall_insert; [exact Hh |].
    destruct (Forall_lookup_course _ _ _ _ Hh E) as [Hn Ha].
    split; simpl; [exact Hn |].
    apply Forall_app. split; [exact Ha |].
    repeat constructor; simpl; apply trimmed_strip.
  - unfold delete_assignment.
    destruct (heap self !! course) as [co |] eqn:E; simpl; [| exact Hs].
    apply names_trimmed_save. simpl.
    apply Forall_insert; [exact Hh |].
    apply course_trimmed_remove. exact (Forall_lookup_course _ _ _ _ Hh E).
Qed.

Lemma names_trimmed_run (ops : list op) (self : t) :
  names_trimmed self -> names_trimmed (run self ops).
Proof.
  unfold run. revert self.
  induction ops as [| o ops IH]; intros self H; simpl; [exact H |].
  apply IH, names_trimmed_step, H.
Qed.

Lemma In_objects (h : list Course.t) (l : list cref) (c : cref) (co : Course.t) :
  In c l -> h !! c = Some co -> In co (objects h l).
Proof.
  intros Hc E. unfold objects.
  apply list_elem_of_In, list_elem_of_omap. exists c.
  split; [now apply list_elem_of_In | exact E].
Qed.

(** ** Loading *)

Section Linking.

Variable h0 : list Course.t.
Variable crows : list DataManager.course_row.

Lemma first_match_seq (p : nat -> bool) (cid : Z)
    (rows : list DataManager.course_row) (n : nat) :
  (forall i r, rows !! i = Some r -> p (n + i)%nat = Z.eqb (fst r) cid) ->
  first_match p (seq n (length rows))
  = option_map (Nat.add n) (first_index cid rows).
Proof.
  revert n. induction rows as [| r rs IH]; intros n Hp; simpl; [reflexivity |].
  rewrite <- (Hp 0%nat r eq_refl), Nat.add_0_r.
  destruct (p n) eqn:E; simpl; [now rewrite Nat.add_0_r |].
  rewrite (IH (S n)).
  - destruct (first_index cid rs); simpl; [f_equal; lia | reflexivity].
  - intros i r' Hi. rewrite <- (Hp (S i) r' Hi). f_equal. lia.
Qed.

Lemma lookup_linked (done : list Assignment.t) (i : nat) :
  (h0 ++ linked_courses crows done) !! (length h0 + i)%nat
  = (fun r => Course.mk (fst r) (snd r)
                (List.filter (linked_to crows i) done)) <$> crows !! i.
Proof.
  rewrite lookup_app_r by lia.
  replace (length h0 + i - length h0)%nat with i by lia.
  unfold linked_courses. now rewrite list_lookup_imap.
Qed.

Lemma filter_snoc (p : Assignment.t -> bool) (done : list Assignment.t)
    (a : Assignment.t) :
  List.filter p (done ++ [a])
  = List.filter p done ++ (if p a then [a] else []).
Proof. rewrite List.filter_app. reflexivity. Qed.

Lemma link_linked (done : list Assignment.t) (a : Assignment.t) :
  link (h0 ++ linked_courses crows done) (seq (length h0) (length crows)) a
  = h0 ++ linked_courses crows (done ++ [a]).
Proof.
  unfold link.
  rewrite (first_match_seq _ (Assignment.course_id a) crows).
  2:{ intros i r Hi. rewrite lookup_linked, Hi. reflexivity. }
  destruct (first_index (Assignment.course_id a) crows) as [i |] eqn:E; simpl.
  - rewrite alter_app_r. f_equal.
    apply list_eq. intros j. unfold linked_courses.
    destruct (decide (i = j)) as [<- | Hne].
    + rewrite list_lookup_alter_eq, !list_lookup_imap.
      destruct (_ !! i) as [r |]; simpl; [| reflexivity].
      unfold Course.add_assignment; simpl. rewrite filter_snoc.
      replace (linked_to crows i a) with true; [reflexivity |].
      unfold linked_to. now rewrite E, Nat.eqb_refl.
    + rewrite list_lookup_alter_ne by exact Hne.
      rewrite !list_lookup_imap.
      destruct (_ !! j) as [r |]; simpl; [| reflexivity].
      rewrite filter_snoc.
      replace (linked_to crows j a) with false; [now rewrite app_nil_r |].
      unfold linked_to. rewrite E. symmetry. now apply Nat.eqb_neq.
  - f_equal. unfold linked_courses. apply imap_ext. intros j r _.
    rewrite filter_snoc.
    replace (linked_to crows j a) with false; [now rewrite app_nil_r |].
    unfold linked_to. now rewrite E.
Qed.

Lemma fold_link_linked (todo done : list Assignment.t) :
  fold_left (fun h a => link h (seq (length h0) (length crows)) a) todo
            (h0 ++ linked_courses crows done)
  = h0 ++ linked_courses crows (done ++ todo).
Proof.
  revert done. induction todo as [| a todo IH]; intros done; simpl.
  - now rewrite app_nil_r.
  - rewrite link_linked, IH, <- app_assoc. reflexivity.
Qed.

End Linking.

Lemma objects_new (h0 l : list Course.t) :
  objects (h0 ++ l) (seq (length h0) (length l)) = l.
Proof.
  revert h0. induction l as [| x l IH]; intros h0; [reflexivity |].
  simpl. unfold objects. cbn.
  rewrite list_lookup_middle by reflexivity.
  f_equal. specialize (IH (h0 ++ [x])).
  rewrite <- app_assoc, length_app, Nat.add_1_r in IH. exact IH.
Qed.

Lemma imap_map {A B} (g : A -> B) (f : nat -> A -> B) (l : list A) :
  (forall i x, f i x = g x) -> imap f l = map g l.
Proof.
  revert f. induction l as [| x l IH]; intros f H; simpl; [reflexivity |].
  rewrite H. f_equal. apply IH. intros i y. apply H.
Qed.

Lemma length_linked_courses (crows : list DataManager.course_row)
    (done : list Assignment.t) :
  length (linked_courses crows done) = length crows.
Proof. unfold linked_courses. apply length_imap. Qed.

(** The collection after a load, in full. *)
Lemma load_all_data_objects (self : t) :
  let crows := default [] (DataManager.courses_file (files self)) in
  heap (load_all_data self)
  = heap self
    ++ linked_courses crows
         (DataManager.load_assignments (files self) (next_obj self)) /\
  courses (load_all_data self) = seq (length (heap self)) (length crows) /\
  course_objects (load_all_data self)
  = linked_courses crows
      (DataManager.load_assignments (files self) (next_obj self)).
Proof.
  cbv zeta.
  set (crows := default [] (DataManager.courses_file (files self))).
  set (loaded := DataManager.load_assignments (files self) (next_obj self)).
  assert (Hl : DataManager.load_courses (files self)
               = linked_courses crows []).
  { unfold DataManager.load_courses, linked_courses, crows.
    destruct (DataManager.courses_file (files self)) as [rows |]; simpl;
      [| reflexivity].
    symmetry. now apply imap_map. }
  assert (Hh : heap (load_all_data self)
               = heap self ++ linked_courses crows loaded).
  { unfold load_all_data; simpl. fold loaded. rewrite Hl.
    rewrite length_linked_courses.
    now rewrite (fold_link_linked (heap self) crows loaded []). }
  assert (Hc : courses (load_all_data self)
               = seq (length (heap self)) (length crows)).
  { unfold load_all_data; simpl. now rewrite Hl, length_linked_courses. }
  split; [exact Hh | split; [exact Hc |]].
  unfold course_objects. rewrite Hh, Hc.
  rewrite <- (length_linked_courses crows loaded). apply objects_new.
Qed.

Lemma first_index_Some (cid : Z) (rows : list DataManager.course_row) (i : nat) :
  first_index cid rows = Some i <->
  (exists r, rows !! i = Some r /\ fst r = cid) /\
  (forall j r', (j < i)%nat -> rows !! j = Some r' -> fst r' <> cid).
Proof.
  revert i. induction rows as [| r rs IH]; intros i; simpl.
  - split; [discriminate | intros [(r & H & _) _]; discriminate].
  - destruct (Z.eqb (fst r) cid) eqn:E.
    + apply Z.eqb_eq in E. split.
      * intros [= <-]. split; [eauto |]. intros j r' Hj. lia.
      * intros [_ Hfirst]. destruct i as [| i]; [reflexivity |].
        exfalso. apply (Hfirst 0%nat r); [lia | reflexivity | exact E].
    + apply Z.eqb_neq in E. destruct i as [| i].
      * split.
        -- destruct (first_index cid rs); discriminate.
        -- intros [(r0 & [= <-] & H0) _]. contradiction.
      * specialize (IH i). split.
        -- intros H. destruct (first_index cid rs) as [k |]; [| discriminate].
           injection H as ->. destruct IH as [[Hex Hfirst] _]; [reflexivity |].
           split; [exact Hex |].
           intros [| j] r' Hj Hr'; simpl in Hr'.
           ++ injection Hr' as <-. exact E.
           ++ apply (Hfirst j r'); [lia | exact Hr'].
        -- intros [Hex Hfirst]. destruct IH as [_ IH]. rewrite IH; [reflexivity |].
           split; [exact Hex |].
           intros j r' Hj Hr'. apply (Hfirst (S j) r'); [lia | exact Hr'].
Qed.

Lemma first_index_None (cid : Z) (rows : list DataManager.course_row) :
  (forall r, In r rows -> fst r <> cid) -> first_index cid rows = None.
Proof.
  induction rows as [| r rs IH]; simpl; [reflexivity |]. intros H.
  destruct (Z.eqb (fst r) cid) eqn:E.
  - apply Z.eqb_eq in E. exfalso. apply (H r); auto.
  - rewrite IH; [reflexivity |]. intros r' Hr'. apply H. now right.
Qed.

(** C4: after a load the collection holds one course per row of the courses
    store, in order; a loaded assignment is in the list of the first course
    whose identifier is its [course_id], and in no other list; one whose
    [course_id] is no course's identifier is in no list at all.  The load
    is a total function of the state: it raises nothing. *)
Theorem load_all_data_links (self : t) :
  let crows := default [] (DataManager.courses_file (files self)) in
  let loaded := DataManager.load_assignments (files self) (next_obj self) in
  let self' := load_all_data self in
  course_objects self'
  = imap (fun i r => Course.mk (fst r) (snd r)
                       (List.filter (linked_to crows i) loaded)) crows /\
  (forall a i r, In a loaded -> crows !! i = Some r ->
     fst r = Assignment.course_id a ->
     (forall j r', (j < i)%nat -> crows !! j = Some r' ->
                   fst r' <> Assignment.course_id a) ->
     exists co, course_objects self' !! i = Some co /\
                Course.course_id co = Assignment.course_id a /\
                In a (Course.assignments co) /\
                forall k co', k <> i -> course_objects self' !! k = Some co' ->
                              ~ In a (Course.assignments co')) /\
  (forall a, In a loaded ->
     (forall r, In r crows -> fst r <> Assignment.course_id a) ->
     forall co, In co (course_objects self') ->
                ~ In a (Course.assignments co)).
Proof.
  cbv zeta. destruct (load_all_data_objects self) as (_ & _ & Hobj).
  cbv zeta in Hobj. rewrite Hobj. clear Hobj.
  set (crows := default [] (DataManager.courses_file (files self))).
  set (loaded := DataManager.load_assignments (files self) (next_obj self)).
  unfold linked_courses.
  split; [reflexivity | split].
  - intros a i r Ha Hi Hid Hfirst.
    assert (E : first_index (Assignment.course_id a) crows = Some i).
    { apply first_index_Some. split; [eauto | exact Hfirst]. }
    eexists. rewrite list_lookup_imap, Hi. split; [reflexivity |]. simpl.
    split; [exact Hid | split].
    + apply List.filter_In. split; [exact Ha |].
      unfold linked_to. now rewrite E, Nat.eqb_refl.
    + intros k co' Hk Hco'. rewrite list_lookup_imap in Hco'.
      destruct (_ !! k) as [r' |]; [| discriminate].
      injection Hco' as <-. simpl. intros Hin.
      apply List.filter_In in Hin as [_ Hin]. unfold linked_to in Hin.
      rewrite E in Hin. apply Nat.eqb_eq in Hin. congruence.
  - intros a Ha Hnone co Hco Hin.
    apply list_elem_of_In, list_elem_of_lookup in Hco as [k Hk].
    rewrite list_lookup_imap in Hk.
    destruct (_ !! k) as [r' |]; [| discriminate].
    injection Hk as <-. simpl in Hin.
    apply List.filter_In in Hin as [_ Hin]. unfold linked_to in Hin.
    now rewrite (first_index_None _ _ Hnone) in Hin.
Qed.

Lemma load_all_data_links_witness :
  map (fun co => map Assignment.assignment_id (Course.assignments co))
      (course_objects
         (load_all_data (GradeCalculator.mk [] 0 [] stores_dangling [])))
  = [[1%Z]; []; [3%Z]].
Proof.
  destruct (load_all_data_links (GradeCalculator.mk [] 0 [] stores_dangling []))
    as (H & _ & _).
  rewrite H. reflexivity.
Defined.

(** ** Saving, then loading *)

Lemma lookup_map {A B} (f : A -> B) (l : list A) (i : nat) :
  map f l !! i = f <$> l !! i.
Proof. revert i. induction l; intros [| i]; simpl; auto. Qed.

Lemma row_of_assignments_of_rows (o : nat)
    (rows : list DataManager.assignment_row) :
  map DataManager.row_of_assignment (DataManager.assignments_of_rows o rows)
  = rows.
Proof.
  revert o. induction rows as [| r rows IH]; intros o; simpl; [reflexivity |].
  rewrite IH. now destruct r as [[[[? ?] ?] ?] ?].
Qed.

Lemma filter_map_comm {A B} (f : A -> B) (p : B -> bool) (l : list A) :
  map f (List.filter (fun a => p (f a)) l) = List.filter p (map f l).
Proof.
  induction l as [| x l IH]; simpl; [reflexivity |].
  destruct (p (f x)); simpl; now rewrite IH.
Qed.

Lemma filter_none {A} (p : A -> bool) (l : list A) :
  (forall x, In x l -> p x = false) -> List.filter p l = [].
Proof.
  induction l as [| x l IH]; simpl; [reflexivity |]. intros H.
  rewrite (H x) by auto. auto.
Qed.

Lemma filter_all {A} (p : A -> bool) (l : list A) :
  (forall x, In x l -> p x = true) -> List.filter p l = l.
Proof.
  induction l as [| x l IH]; simpl; [reflexivity |]. intros H.
  rewrite (H x) by auto. f_equal. auto.
Qed.

(** The course that a row of the assignments store belongs to, by the rows
    [crows] of the courses store. *)
Lemma linked_to_row (crows : list DataManager.course_row) (i : nat)
    (a : Assignment.t) :
  linked_to crows i a
  = match first_index (snd (fst (fst (fst (DataManager.row_of_assignment a)))))
            crows with
    | Some j => Nat.eqb j i
    | None => false
    end.
Proof. reflexivity. Qed.

Section Chunks.

Variable owner : Z -> option nat.

Let mine (i : nat) (r : DataManager.assignment_row) : bool :=
  match owner (snd (fst (fst (fst r)))) with
  | Some j => Nat.eqb j i
  | None => false
  end.

Lemma mine_rows (co : Course.t) (j i : nat) (r : DataManager.assignment_row) :
  owner (Course.course_id co) = Some j ->
  Forall (fun a => Assignment.course_id a = Course.course_id co)
         (Course.assignments co) ->
  In r (map DataManager.row_of_assignment (Course.assignments co)) ->
  mine i r = Nat.eqb j i.
Proof.
  intros Ho Hco Hr. apply in_map_iff in Hr as (a & <- & Ha).
  unfold mine; simpl.
  rewrite (proj1 (List.Forall_forall _ _) Hco a Ha), Ho.
  reflexivity.
Qed.

Lemma filter_assignment_rows (objs : list Course.t) (n i : nat) :
  (forall j co, objs !! j = Some co ->
                owner (Course.course_id co) = Some (n + j)%nat) ->
  Forall (fun co =>
            Forall (fun a => Assignment.course_id a = Course.course_id co)
                   (Course.assignments co)) objs ->
  List.filter (mine (n + i)) (DataManager.assignment_rows objs)
  = match objs !! i with
    | Some co => map DataManager.row_of_assignment (Course.assignments co)
    | None => []
    end.
Proof.
  revert n i. induction objs as [| co objs IH]; intros n i Hown Hval;
    [reflexivity |].
  apply Forall_cons in Hval as [Hco Hval].
  pose proof (Hown 0%nat co eq_refl) as Hco0. rewrite Nat.add_0_r in Hco0.
  unfold DataManager.assignment_rows in *. simpl.
  rewrite List.filter_app. destruct i as [| i]; simpl.
  - rewrite filter_all, filter_none; [apply app_nil_r | |].
    + intros r Hr. apply in_flat_map in Hr as (co' & Hco' & Hr).
      apply list_elem_of_In, list_elem_of_lookup in Hco' as [j Hj].
      rewrite (mine_rows co' (n + S j) _ r (Hown (S j) co' Hj)
                 (Forall_lookup_1 _ _ _ _ Hval Hj) Hr).
      apply Nat.eqb_neq. lia.
    + intros r Hr. rewrite (mine_rows co n _ r Hco0 Hco Hr).
      apply Nat.eqb_eq. lia.
  - rewrite filter_none.
    + simpl. replace (n + S i)%nat with (S n + i)%nat by lia.
      apply IH; [| exact Hval].
      intros j co' Hj. rewrite (Hown (S j) co' Hj). f_equal. lia.
    + intros r Hr. rewrite (mine_rows co n _ r Hco0 Hco Hr).
      apply Nat.eqb_neq. lia.
Qed.

End Chunks.

Lemma first_index_course_rows (objs : list Course.t) (j : nat) (co : Course.t) :
  NoDup (map Course.course_id objs) ->
  objs !! j = Some co ->
  first_index (Course.course_id co) (DataManager.course_rows objs) = Some j.
Proof.
  intros Hnd Hj. apply first_index_Some. unfold DataManager.course_rows. split.
  - exists (DataManager.row_of_course co).
    rewrite lookup_map, Hj. split; reflexivity.
  - intros k r' Hk Hr' Heq. rewrite lookup_map in Hr'.
    destruct (objs !! k) as [co' |] eqn:Hco'; [| discriminate].
    injection Hr' as <-. simpl in Heq.
    assert (k = j); [| lia].
    eapply (NoDup_lookup _ k j _ Hnd); rewrite lookup_map.
    + now rewrite Hco'; simpl; rewrite Heq.
    + now rewrite Hj.
Qed.

(** The collection read back from the stores that [objs] were saved to. *)
Lemma snapshot_linked (objs : list Course.t) (o : nat) :
  NoDup (map Course.course_id objs) ->
  Forall (fun co =>
            Forall (fun a => Assignment.course_id a = Course.course_id co)
                   (Course.assignments co)) objs ->
  map (fun co => (Course.course_id co, Course.name co,
                  map DataManager.row_of_assignment (Course.assignments co)))
      (linked_courses (DataManager.course_rows objs)
         (DataManager.assignments_of_rows o (DataManager.assignment_rows objs)))
  = map (fun co => (Course.course_id co, Course.name co,
                    map DataManager.row_of_assignment (Course.assignments co)))
        objs.
Proof.
  intros Hnd Hval. apply list_eq. intros i.
  rewrite !lookup_map. unfold linked_courses. rewrite list_lookup_imap.
  unfold DataManager.course_rows at 2. rewrite lookup_map.
  destruct (objs !! i) as [co |] eqn:Hi; simpl; [| reflexivity].
  do 2 f_equal.
  rewrite (filter_map_comm DataManager.row_of_assignment
             (fun r => match first_index (snd (fst (fst (fst r))))
                               (DataManager.course_rows objs) with
                       | Some j => Nat.eqb j i
                       | None => false
                       end)).
  rewrite row_of_assignments_of_rows.
  pose proof (filter_assignment_rows
                (fun cid => first_index cid (DataManager.course_rows objs))
                objs 0 i) as Hf.
  simpl in Hf. rewrite Hf; [now rewrite Hi | | exact Hval].
  intros j co' Hj. now apply first_index_course_rows.
Qed.

(** *** Collections built by the program are valid *)

Lemma objects_snoc_heap (h : list Course.t) (x : Course.t) (l : list cref) :
  Forall (fun c => (c < length h)%nat) l -> objects (h ++ [x]) l = objects h l.
Proof.
  unfold objects. induction 1 as [| c l Hc _ IH]; [reflexivity |].
  cbn. rewrite lookup_app_l by exact Hc. now rewrite IH.
Qed.

Lemma objects_app (h : list Course.t) (l1 l2 : list cref) :
  objects h (l1 ++ l2) = objects h l1 ++ objects h l2.
Proof. unfold objects. apply omap_app. Qed.

Lemma objects_cons (h : list Course.t) (y : cref) (l : list cref) :
  objects h (y :: l)
  = match h !! y with
    | Some co => co :: objects h l
    | None => objects h l
    end.
Proof. reflexivity. Qed.

Lemma ids_objects_ext (h h' : list Course.t) (l : list cref) :
  (forall c : cref,
      Course.course_id <$> h' !! c = Course.course_id <$> h !! c) ->
  map Course.course_id (objects h' l) = map Course.course_id (objects h l).
Proof.
  intros H. induction l as [| y l IH]; [reflexivity |].
  rewrite !objects_cons. specialize (H y). revert H.
  destruct (h' !! y) as [co' |], (h !! y) as [co |]; simpl; intros H;
    try discriminate; [| exact IH].
  injection H as H. now rewrite H, IH.
Qed.

Lemma ids_insert (h : list Course.t) (c : cref) (co co' : Course.t)
    (l : list cref) :
  h !! c = Some co -> Course.course_id co' = Course.course_id co ->
  map Course.course_id (objects (<[c := co']> h) l)
  = map Course.course_id (objects h l).
Proof.
  intros Hc Hid. apply ids_objects_ext. intros y.
  destruct (decide (c = y)) as [<- | Hne].
  - rewrite list_lookup_insert_eq by (eapply lookup_lt_Some, Hc).
    rewrite Hc. simpl. now rewrite Hid.
  - now rewrite list_lookup_insert_ne by exact Hne.
Qed.

Lemma In_ids_remove (h : list Course.t) (c : cref) (l : list cref) (i : Z) :
  In i (map Course.course_id (objects h (py_remove id c l))) ->
  In i (map Course.course_id (objects h l)).
Proof.
  unfold objects. induction l as [| y l IH]; simpl; [tauto |].
  destruct (Nat.eqb y c).
  - cbn. destruct (h !! y); simpl; auto.
  - cbn. destruct (h !! y); simpl; [| exact IH]. intros [H | H]; auto.
Qed.

Lemma NoDup_ids_remove (h : list Course.t) (c : cref) (l : list cref) :
  NoDup (map Course.course_id (objects h l)) ->
  NoDup (map Course.course_id (objects h (py_remove id c l))).
Proof.
  induction l as [| y l IH]; simpl; [auto |].
  unfold objects in *. cbn.
  destruct (Nat.eqb y c).
  - destruct (h !! y); simpl; [| auto]. intros H. now apply NoDup_cons in H.
  - cbn. destruct (h !! y) as [co |]; simpl; [| exact IH].
    intros H. apply NoDup_cons in H as [Hnotin Hnd].
    apply NoDup_cons. split; [| auto].
    intros Hin. apply Hnotin. apply list_elem_of_In.
    apply list_elem_of_In in Hin. eapply In_ids_remove, Hin.
Qed.

Lemma well_formed_save (self : t) : well_formed self -> well_formed (save_all_data self).
Proof. intros H. exact H. Qed.

Lemma well_formed_step (self : t) (o : op) :
  well_formed self -> well_formed (step self o).
Proof.
  intros Hs. pose proof Hs as (Hlive & Hnd & Hown).
  destruct o as [name | course | course name score max_points | course a];
    simpl.
  - unfold add_course. destruct (String.eqb _ _); simpl; [exact Hs |].
    apply well_formed_save. split; [| split]; simpl.
    + apply Forall_app. split.
      * eapply Forall_impl; [exact Hlive |]. intros c Hc. simpl in Hc.
        rewrite length_app. simpl. lia.
      * repeat constructor. rewrite length_app. simpl. lia.
    + unfold course_ids, course_objects; simpl.
      rewrite objects_app, objects_snoc_heap by exact Hlive.
      unfold objects at 2. cbn. rewrite lookup_snoc_new. simpl.
      rewrite map_app. simpl.
      apply NoDup_app. split; [exact Hnd | split; [| apply NoDup_singleton]].
      intros i Hi Hnew. apply list_elem_of_singleton in Hnew.
      apply list_elem_of_In in Hi.
      apply (py_max_ge _ 0) in Hi. fold (course_objects self) in Hi.
      unfold course_ids, course_objects in Hi. lia.
    + apply Forall_app. split; [exact Hown |]. repeat constructor.
  - unfold delete_course. destruct (py_in _ _ _); [| exact Hs].
    apply well_formed_save. split; [| split]; simpl.
    + apply Forall_py_remove, Hlive.
    + apply NoDup_ids_remove, Hnd.
    + exact Hown.
  - unfold add_assignment.
    repeat match goal with
           | |- context [if ?b then _ else _] => destruct b; simpl; [exact Hs |]
           end.
    destruct (heap self !! course) as [co |] eqn:E; simpl; [| exact Hs].
    apply well_formed_save. split; [| split]; simpl.
    + now rewrite length_insert.
    + unfold course_ids, course_objects; simpl.
      erewrite ids_insert; [exact Hnd | exact E | reflexivity].
    + apply Forall_insert; [exact Hown |]. simpl.
      apply Forall_app. split; [exact (Forall_lookup_1 _ _ _ _ Hown E) |].
      repeat constructor.
  - unfold delete_assignment.
    destruct (heap self !! course) as [co |] eqn:E; simpl; [| exact Hs].
    apply well_formed_save. split; [| split]; simpl.
    + now rewrite length_insert.
    + unfold course_ids, course_objects; simpl.
      erewrite ids_insert; [exact Hnd | exact E |].
      unfold Course.remove_assignment. now destruct (py_in _ _ _).
    + apply Forall_insert; [exact Hown |].
      pose proof (Forall_lookup_1 _ _ _ _ Hown E) as Hco.
      unfold Course.remove_assignment. destruct (py_in _ _ _); [| exact Hco].
      simpl. apply Forall_py_remove, Hco.
Qed.

Lemma well_formed_run (ops : list op) (self : t) :
  well_formed self -> well_formed (run self ops).
Proof.
  unfold run. revert self.
  induction ops as [| o ops IH]; intros self H; simpl; [exact H |].
  apply IH, well_formed_step, H.
Qed.

Lemma well_formed_valid (self : t) : well_formed self -> valid_collection self.
Proof.
  intros (_ & Hnd & Hown). split; [exact Hnd |].
  apply Forall_objects, Hown.
Qed.

(** C3: saving a valid collection to the two stores and loading them back,
    in the same process or in a new one, gives a collection with the same
    courses in the same order, each with its identifier, its name and its
    assignments in order, each assignment with its identifiers, name, score
    and maximum points.  A collection is valid when its course identifiers
    are distinct and its assignments carry their course's identifier; every
    collection that the calls build from empty stores is. *)
Theorem save_load_round_trip (self : t) :
  valid_collection self ->
  let view := fun co =>
    (Course.course_id co, Course.name co,
     map DataManager.row_of_assignment (Course.assignments co)) in
  map view (course_objects (load_all_data (save_all_data self)))
  = map view (course_objects self) /\
  map view (course_objects (init (files (save_all_data self))))
  = map view (course_objects self) /\
  (forall ops, valid_collection (run (init (DataManager.mk None None)) ops)).
Proof.
  intros [Hnd Hval]. unfold course_ids in Hnd. cbv zeta.
  split; [| split].
  - destruct (load_all_data_objects (save_all_data self)) as (_ & _ & ->).
    simpl. apply snapshot_linked; assumption.
  - unfold init.
    match goal with
    | |- context [load_all_data ?s] =>
        destruct (load_all_data_objects s) as (_ & _ & ->)
    end.
    simpl. apply snapshot_linked; assumption.
  - intros ops. apply well_formed_valid, well_formed_run.
    split; [| split]; constructor.
Qed.

Lemma save_load_round_trip_witness :
  snapshot (load_all_data (save_all_data gc_abf)) = snapshot gc_abf /\
  snapshot (init (files (save_all_data gc_abf))) = snapshot gc_abf /\
  snapshot gc_abf
  = [(1%Z, "Algebra"%string,
      [(1%Z, 1%Z, "HW1"%string, 9, 10); (3%Z, 1%Z, "HW2"%string, 19, 20)]);
     (2%Z, "Biology"%string,
      [(2%Z, 2%Z, "Lab"%string, 8, 10); (4%Z, 2%Z, "Quiz"%string, 4, 5)]);
     (3%Z, "Chemistry"%string, [])].
Proof.
  destruct (save_load_round_trip gc_abf) as (H1 & H2 & _).
  - split.
    + apply (bool_decide_unpack _). vm_compute. exact I.
    + vm_compute. repeat constructor.
  - split; [exact H1 | split; [exact H2 | reflexivity]].
Defined.


(** ** Names, from the stores on *)

Lemma trimmed_assignments_of_rows (o : nat)
    (rows : list DataManager.assignment_row) :
  Forall (fun r : DataManager.assignment_row => trimmed (snd (fst (fst r))))
         rows ->
  Forall (fun a => trimmed (Assignment.name a))
         (DataManager.assignments_of_rows o rows).
Proof.
  intros H. revert o. induction H as [| r rows Hr _ IH]; intros o; simpl;
    constructor; [| apply IH].
  now destruct r as [[[[? ?] ?] ?] ?].
Qed.

Lemma Forall_list_filter {A} (P : A -> Prop) (p : A -> bool) (l : list A) :
  Forall P l -> Forall P (List.filter p l).
Proof.
  induction 1 as [| x l Hx _ IH]; simpl; [constructor |].
  destruct (p x); [constructor |]; assumption.
Qed.

Lemma names_trimmed_init (fs : DataManager.t) :
  stores_trimmed fs -> names_trimmed (init fs).
Proof.
  intros [Hc Ha]. unfold init.
  set (s0 := GradeCalculator.mk [] 0 [] (DataManager.create_files_if_needed fs) []).
  destruct (load_all_data_objects s0) as (Hh & _ & _). cbv zeta in Hh.
  assert (Hc0 : default [] (DataManager.courses_file (files s0))
                = default [] (DataManager.courses_file fs)) by reflexivity.
  assert (Ha0 : DataManager.load_assignments (files s0) (next_obj s0)
                = DataManager.assignments_of_rows 0%nat
                    (default [] (DataManager.assignments_file fs))) by reflexivity.
  split; [| split].
  - rewrite Hh, Hc0, Ha0. simpl. unfold linked_courses.
    apply Forall_lookup. intros i co Hco.
    rewrite list_lookup_imap in Hco.
    destruct (_ !! i) as [r |] eqn:Hr; [| discriminate].
    injection Hco as <-. split; simpl.
    + exact (Forall_lookup_1 _ _ _ _ Hc Hr).
    + apply Forall_list_filter, trimmed_assignments_of_rows, Ha.
  - exact Hc.
  - exact Ha.
Qed.

(** C9, as the program has it: a call of [add_course] with a name that is
    not blank returns a new course of the collection whose name is the
    trimmed name, and saves it under that name; a call of [add_assignment]
    that passes the checks returns a new assignment whose name is the
    trimmed name, appends it to the course, and saves it under that name
    when the course is in the collection; a trimmed name has no whitespace
    in front or at its end; hence, when the stores that the process starts
    from hold no name with such whitespace, no call ever leaves one in the
    heap or in a store. *)
Theorem names_are_trimmed :
  (forall self name,
      strip name <> ""%string ->
      exists course co,
        add_course self name = (Return course, snd (add_course self name)) /\
        heap (snd (add_course self name)) !! course = Some co /\
        In course (courses (snd (add_course self name))) /\
        Course.name co = strip name /\
        In (Course.course_id co, strip name)
           (default [] (DataManager.courses_file
                          (files (snd (add_course self name)))))) /\
  (forall self course co name score max_points,
      heap self !! course = Some co ->
      strip name <> ""%string ->
      (max_points <=? 0) = false -> (score <? 0) = false ->
      (max_points <? score) = false ->
      exists a,
        add_assignment self course name score max_points
        = (Return a, snd (add_assignment self course name score max_points)) /\
        Assignment.name a = strip name /\
        heap (snd (add_assignment self course name score max_points)) !! course
        = Some (Course.add_assignment co a) /\
        (In course (courses self) ->
         In (DataManager.row_of_assignment a)
            (default [] (DataManager.assignments_file
                           (files (snd (add_assignment self course name
                                          score max_points))))))) /\
  (forall s, leading_space (strip s) = false /\
             trailing_space (strip s) = false) /\
  (forall start ops, names_trimmed start -> names_trimmed (run start ops)) /\
  (forall fs ops, stores_trimmed fs -> names_trimmed (run (init fs) ops)).
Proof.
  split; [| split; [| split; [| split]]].
  - intros self name Hname. unfold add_course.
    destruct (String.eqb (strip name) "") eqn:E.
    { apply string_eqb_empty in E. contradiction. }
    eexists _, _. split; [reflexivity |]. simpl.
    split; [apply lookup_snoc_new |]. simpl.
    split; [apply in_or_app; right; left; reflexivity |].
    split; [reflexivity |].
    unfold DataManager.course_rows.
    apply (in_map DataManager.row_of_course
             _ (Course.init _ (strip name))).
    eapply In_objects; simpl.
    + apply in_or_app. right. left. reflexivity.
    + apply lookup_snoc_new.
  - intros self course co name score max_points Hco Hname Hm Hs Hx.
    unfold add_assignment.
    destruct (String.eqb (strip name) "") eqn:E.
    { apply string_eqb_empty in E. contradiction. }
    rewrite Hm, Hs, Hx, Hco.
    eexists. split; [reflexivity |]. simpl.
    split; [reflexivity |].
    split; [apply list_lookup_insert_eq; eapply lookup_lt_Some, Hco |].
    intros Hin. unfold DataManager.assignment_rows.
    apply in_flat_map. eexists. split.
    + eapply In_objects; [exact Hin |].
      apply list_lookup_insert_eq. eapply lookup_lt_Some, Hco.
    + simpl. rewrite map_app. apply in_or_app. right. left. reflexivity.
  - intros s. apply trimmed_strip.
  - intros start ops. apply names_trimmed_run.
  - intros fs ops H. apply names_trimmed_run, names_trimmed_init, H.
Qed.

Lemma names_are_trimmed_witness :
  (exists course co,
      add_course gc0 "  Algorithms "
      = (Return course, snd (add_course gc0 "  Algorithms ")) /\
      heap (snd (add_course gc0 "  Algorithms ")) !! course = Some co /\
      Course.name co = "Algorithms"%string /\
      In (Course.course_id co, "Algorithms"%string)
         (default [] (DataManager.courses_file
                        (files (snd (add_course gc0 "  Algorithms ")))))) /\
  (exists a,
      add_assignment gc1 0%nat " HW  1  " 8 10
      = (Return a, snd (add_assignment gc1 0%nat " HW  1  " 8 10)) /\
      Assignment.name a = "HW  1"%string /\
      In (DataManager.row_of_assignment a)
         (default [] (DataManager.assignments_file
                        (files (snd (add_assignment gc1 0%nat " HW  1  "
                                       8 10)))))) /\
  names_trimmed gc_abf.
Proof.
  destruct names_are_trimmed as (H1 & H2 & _ & _ & H5).
  split; [| split].
  - destruct (H1 gc0 "  Algorithms ") as (course & co & Ha & Hb & _ & Hc & Hd);
      [discriminate |].
    exists course, co. auto.
  - destruct (H2 gc1 0%nat (Course.mk 1 "Algorithms" []) " HW  1  " 8 10)
      as (a & Ha & Hb & _ & Hc); try reflexivity; [discriminate |].
    exists a. split; [exact Ha | split; [exact Hb |]].
    apply Hc. left. reflexivity.
  - apply (H5 (DataManager.mk None None)). split; constructor.
Defined.

(** C9, as stated, fails: names that are already in a store are loaded and
    saved as they are.  From a courses store with the name " Algebra ",
    adding a course writes that name back, whitespace included. *)
Lemma add_course_saves_untrimmed_name :
  In (1%Z, " Algebra "%string)
     (default [] (DataManager.courses_file
                    (files (snd (add_course (init stores_spaced) "Biology")))))
  /\ leading_space " Algebra " = true /\ trailing_space " Algebra " = true.
Proof.
  split; [| split]; try reflexivity.
  vm_compute. left. reflexivity.
Qed.


(** ** Percentages *)

(** *** Rounding to binary64, on the specification of the operations *)

Section Binary64.

Local Open Scope Z_scope.

Local Abbreviation fexp := (SpecFloat.fexp prec emax).

Lemma iter_pos_nat {A} (f : A -> A) (p : positive) (x : A) :
  SpecFloat.iter_pos f p x = Nat.iter (Pos.to_nat p) f x.
Proof.
  revert x. induction p as [p IH | p IH |]; intros x; cbn [SpecFloat.iter_pos].
  - rewrite !IH, Pos2Nat.inj_xI. 
    replace (S (2 * Pos.to_nat p))%nat with (Pos.to_nat p + (Pos.to_nat p + 1))%nat by lia.
    rewrite !Nat.iter_add. reflexivity.
  - rewrite !IH, Pos2Nat.inj_xO.
    replace (2 * Pos.to_nat p)%nat with (Pos.to_nat p + Pos.to_nat p)%nat by lia.
    rewrite Nat.iter_add. reflexivity.
  - reflexivity.
Qed.

Lemma shr_1_nonneg (m : Z) (r s : bool) :
  0 <= m ->
  shr_1 (Build_shr_record m r s) = Build_shr_record (m / 2) (Z.odd m) (r || s).
Proof.
  intros Hm. rewrite <- Z.div2_div.
  destruct m as [| [p | p |] | p]; try reflexivity; lia.
Qed.

Lemma shr_iter (n : nat) (m : Z) (r s : bool) :
  0 <= m ->
  let res := Nat.iter n shr_1 (Build_shr_record m r s) in
  shr_m res = m / 2 ^ Z.of_nat n /\
  (r = false -> s = false -> m mod 2 ^ Z.of_nat n = 0 ->
   shr_r res = false /\ shr_s res = false).
Proof.
  intros Hm. induction n as [| n IH]; cbv zeta.
  - simpl. rewrite Z.div_1_r. auto.
  - cbv zeta in IH. rewrite Nat.iter_succ.
    destruct (Nat.iter n shr_1 (Build_shr_record m r s)) as [m' r' s'].
    simpl in IH. destruct IH as [-> IH].
    assert (Hp : 0 < 2 ^ Z.of_nat n) by (apply Z.pow_pos_nonneg; lia).
    rewrite shr_1_nonneg by (apply Z.div_pos; lia).
    simpl shr_m. simpl shr_r. simpl shr_s.
    rewrite Nat2Z.inj_succ, Z.pow_succ_r by lia.
    split.
    + rewrite Z.div_div by lia. f_equal. lia.
    + intros Hr Hs Hmod.
      apply Z.mod_divide in Hmod; [| lia]. destruct Hmod as [k Hk].
      destruct IH as [-> ->]; auto.
      { apply Z.mod_divide; [lia |]. exists (2 * k). lia. }
      split; [| reflexivity].
      replace m with ((2 * k) * 2 ^ Z.of_nat n) by lia.
      rewrite Z.div_mul by lia.
      rewrite Z.odd_mul. reflexivity.
Qed.

Lemma digits2_pos_size (p : positive) : digits2_pos p = Pos.size p.
Proof. induction p; simpl; congruence. Qed.

Lemma Zdigits2_log2 (m : Z) : 0 < m -> Zdigits2 m = Z.log2 m + 1.
Proof.
  destruct m as [| p | p]; try lia. intros _. simpl.
  rewrite digits2_pos_size. destruct p; simpl; lia.
Qed.

Lemma Zdigits2_le (a b : Z) : 0 <= a <= b -> Zdigits2 a <= Zdigits2 b.
Proof.
  intros [Ha Hab]. destruct (Z.eq_dec a 0) as [-> | Hne].
  - destruct b; simpl; lia.
  - rewrite !Zdigits2_log2 by lia.
    pose proof (Z.log2_le_mono a b Hab). lia.
Qed.

Lemma Zdigits2_shift (m k : Z) :
  0 < m -> 0 <= k -> Zdigits2 (m * 2 ^ k) = Zdigits2 m + k.
Proof.
  intros Hm Hk.
  assert (0 < 2 ^ k) by (apply Z.pow_pos_nonneg; lia).
  rewrite !Zdigits2_log2 by nia.
  rewrite Z.log2_mul_pow2 by lia. lia.
Qed.

Lemma fexp_le (a b : Z) : a <= b -> fexp a <= fexp b.
Proof. unfold SpecFloat.fexp, SpecFloat.emin, prec, emax. lia. Qed.

Lemma loc_of_shr_record_of_loc (m : Z) (l : location) :
  loc_of_shr_record (shr_record_of_loc m l) = l.
Proof. now destruct l as [| []]. Qed.

Lemma shr_fexp_spec (m e : Z) (l : location) :
  0 <= m ->
  let e' := Z.max e (fexp (Zdigits2 m + e)) in
  snd (shr_fexp prec emax m e l) = e' /\
  shr_m (fst (shr_fexp prec emax m e l)) = m / 2 ^ (e' - e) /\
  (l = loc_Exact -> m mod 2 ^ (e' - e) = 0 ->
   loc_of_shr_record (fst (shr_fexp prec emax m e l)) = loc_Exact).
Proof.
  intros Hm. cbv zeta. unfold shr_fexp, shr.
  destruct (fexp (Zdigits2 m + e) - e) as [| p | p] eqn:En; simpl fst; simpl snd.
  - replace (Z.max e (fexp (Zdigits2 m + e))) with e by lia.
    rewrite Z.sub_diag, Z.div_1_r, loc_of_shr_record_of_loc.
    split; [reflexivity | split; [now destruct l as [| []] | auto]].
  - replace (Z.max e (fexp (Zdigits2 m + e))) with (e + Z.pos p) by lia.
    replace (e + Z.pos p - e) with (Z.pos p) by lia.
    rewrite iter_pos_nat.
    split; [reflexivity |].
    assert (Hrec : forall r s, shr_record_of_loc m l = Build_shr_record m r s ->
              shr_m (Nat.iter (Pos.to_nat p) shr_1 (shr_record_of_loc m l))
              = m / 2 ^ Z.pos p /\
              (l = loc_Exact -> m mod 2 ^ Z.pos p = 0 ->
               loc_of_shr_record
                 (Nat.iter (Pos.to_nat p) shr_1 (shr_record_of_loc m l))
               = loc_Exact)).
    { intros r s E. rewrite E.
      destruct (shr_iter (Pos.to_nat p) m r s Hm) as [H1 H2].
      rewrite positive_nat_Z in H1, H2. split; [exact H1 |].
      intros -> Hmod. simpl in E. injection E as <- <-.
      destruct (H2 eq_refl eq_refl Hmod) as [Hr Hs].
      destruct (Nat.iter _ _ _) as [m' r' s']. simpl in *. now subst. }
    destruct l as [| []]; eapply Hrec; reflexivity.
  - replace (Z.max e (fexp (Zdigits2 m + e))) with e by lia.
    rewrite Z.sub_diag, Z.div_1_r, loc_of_shr_record_of_loc.
    split; [reflexivity | split; [now destruct l as [| []] | auto]].
Qed.

Lemma round_nearest_even_bounds (m : Z) (l : location) :
  m <= round_nearest_even m l <= m + 1 /\
  (l = loc_Exact -> round_nearest_even m l = m).
Proof.
  split; [| now intros ->].
  destruct l as [| []]; simpl; try lia. destruct (Z.even m); lia.
Qed.

Lemma div_pow_le (m K d : Z) : 0 < d -> m <= K * d -> m / d <= K.
Proof.
  intros Hd H. apply Z.div_le_upper_bound; [lia | nia].
Qed.

Lemma div_pow_lt (m K d : Z) : 0 < d -> m < K * d -> m / d < K.
Proof.
  intros Hd H. apply Z.div_lt_upper_bound; [lia | nia].
Qed.

Lemma pow_split (a b c : Z) :
  a <= b <= c -> 2 ^ (c - a) = 2 ^ (c - b) * 2 ^ (b - a).
Proof. intros H. rewrite <- Z.pow_add_r by lia. f_equal. lia. Qed.

Lemma binary_round_aux_le (mx ex : Z) (lx : location) (mB : positive) (eB : Z) :
  fexp (Zdigits2 (Z.pos mB) + eB) = eB ->
  eB <= emax - prec ->
  0 <= mx -> ex <= eB ->
  mx <= Z.pos mB * 2 ^ (eB - ex) ->
  (lx <> loc_Exact -> mx + 1 <= Z.pos mB * 2 ^ (eB - ex)) ->
  SF_in_range mB eB (binary_round_aux prec emax false mx ex lx).
Proof.
  intros HB HeB Hmx Hex Hle Hlt. unfold SF_in_range, binary_round_aux.
  destruct (shr_fexp_spec mx ex lx Hmx) as (He1 & Hm1 & Hl1). cbv zeta in *.
  destruct (shr_fexp prec emax mx ex lx) as [mrs1 e1]. simpl in He1, Hm1, Hl1.
  rewrite <- He1 in Hm1, Hl1.
  assert (Hd : forall m e, 0 <= m -> e <= eB -> m <= Z.pos mB * 2 ^ (eB - e) ->
                           fexp (Zdigits2 m + e) <= eB).
  { intros m e H0 He Hm. rewrite <- HB. apply fexp_le.
    pose proof (Zdigits2_le m _ (conj H0 Hm)) as Hdig.
    rewrite Zdigits2_shift in Hdig by lia. lia. }
  assert (He1B : e1 <= eB).
  { pose proof (Hd mx ex Hmx Hex Hle). lia. }
  assert (Hex1 : ex <= e1) by lia.
  set (K := Z.pos mB * 2 ^ (eB - e1)).
  assert (Hpow : 0 < 2 ^ (e1 - ex)) by (apply Z.pow_pos_nonneg; lia).
  assert (HK0 : Z.pos mB * 2 ^ (eB - ex) = K * 2 ^ (e1 - ex)).
  { unfold K. rewrite (pow_split ex e1 eB) by lia. lia. }
  rewrite HK0 in Hle, Hlt.
  set (m1 := round_nearest_even (shr_m mrs1) (loc_of_shr_record mrs1)).
  assert (Hm1K : 0 <= m1 <= K).
  { unfold m1.
    destruct (round_nearest_even_bounds (shr_m mrs1) (loc_of_shr_record mrs1))
      as [Hb Hexact].
    rewrite Hm1 in *.
    pose proof (Z.div_pos mx (2 ^ (e1 - ex)) Hmx Hpow) as Hq0.
    split; [lia |].
    destruct (Z.eq_dec (mx mod 2 ^ (e1 - ex)) 0) as [Hmod | Hmod].
    - destruct lx as [| c].
      + rewrite Hexact by auto. now apply div_pow_le.
      + assert (mx / 2 ^ (e1 - ex) < K); [| lia].
        apply div_pow_lt; [lia |]. specialize (Hlt ltac:(discriminate)). lia.
    - assert (mx / 2 ^ (e1 - ex) < K); [| lia].
      apply div_pow_lt; [lia |].
      assert (mx <> K * 2 ^ (e1 - ex)); [| lia].
      intros ->. apply Hmod. apply Z.mod_mul. lia. }
  clearbody m1.
  destruct Hm1K as [Hm10 Hm1K].
  destruct (shr_fexp_spec m1 e1 loc_Exact Hm10) as (He2 & Hm2 & _).
  cbv zeta in *.
  destruct (shr_fexp prec emax m1 e1 loc_Exact) as [mrs2 e2].
  simpl in He2, Hm2. rewrite <- He2 in Hm2.
  assert (He2B : e2 <= eB).
  { pose proof (Hd m1 e1 Hm10 He1B Hm1K). lia. }
  assert (He12 : e1 <= e2) by lia.
  assert (Hpow2 : 0 < 2 ^ (e2 - e1)) by (apply Z.pow_pos_nonneg; lia).
  assert (Hm2B : 0 <= shr_m mrs2 <= Z.pos mB * 2 ^ (eB - e2)).
  { rewrite Hm2. split; [apply Z.div_pos; lia |].
    apply div_pow_le; [lia |].
    unfold K in Hm1K. rewrite (pow_split e1 e2 eB) in Hm1K by lia. lia. }
  destruct (shr_m mrs2) as [| m | m]; [exact I | | lia].
  replace (Z.leb e2 (Z.sub emax prec)) with true by (symmetry; apply Z.leb_le; lia).
  destruct (Z.eq_dec e2 eB) as [-> | Hne]; [| left; lia].
  right. split; [reflexivity |].
  rewrite Z.sub_diag in Hm2B. simpl in Hm2B. lia.
Qed.

Lemma valid_binary_finite (s : bool) (m : positive) (e : Z) :
  valid_binary (S754_finite s m e) = true ->
  fexp (Zdigits2 (Z.pos m) + e) = e /\ e <= emax - prec.
Proof.
  simpl. unfold bounded, canonical_mantissa. intros H.
  apply andb_true_iff in H as [H1 H2].
  apply Z.eqb_eq in H1. apply Z.leb_le in H2. simpl. auto.
Qed.

Lemma mantissa_lt_pow (m : positive) : Z.pos m < 2 ^ Zdigits2 (Z.pos m).
Proof.
  rewrite Zdigits2_log2 by lia.
  pose proof (Z.log2_spec (Z.pos m) ltac:(lia)). lia.
Qed.

Lemma mantissa_ge_pow (m : positive) : 2 ^ (Zdigits2 (Z.pos m) - 1) <= Z.pos m.
Proof.
  rewrite Zdigits2_log2 by lia.
  pose proof (Z.log2_spec (Z.pos m) ltac:(lia)).
  replace (Z.log2 (Z.pos m) + 1 - 1) with (Z.log2 (Z.pos m)) by lia. lia.
Qed.

Lemma canonical_mantissa_lt (m : positive) (e : Z) :
  fexp (Zdigits2 (Z.pos m) + e) = e -> Z.pos m < 2 ^ prec /\ emin <= e.
Proof.
  intros H. unfold SpecFloat.fexp in H.
  assert (Zdigits2 (Z.pos m) <= prec) by lia.
  split; [| unfold SpecFloat.emin in *; lia].
  pose proof (mantissa_lt_pow m).
  pose proof (Z.pow_le_mono_r 2 _ _ ltac:(lia) H0). lia.
Qed.

Lemma SFleb_finite (mx my : positive) (ex ey : Z) :
  SFleb (S754_finite false mx ex) (S754_finite false my ey) = true ->
  ex < ey \/ (ex = ey /\ (mx <= my)%positive).
Proof.
  unfold SFleb, SFcompare.
  destruct (Z.compare_spec ex ey) as [-> | H | H]; [| auto | discriminate].
  intros Hc. right. split; [reflexivity |].
  unfold Pos.le. fold (Pos.compare mx my) in Hc.
  destruct (mx ?= my)%positive; congruence.
Qed.

Lemma finite_le_scaled (mx my : positive) (ex ey : Z) :
  fexp (Zdigits2 (Z.pos mx) + ex) = ex ->
  fexp (Zdigits2 (Z.pos my) + ey) = ey ->
  SFleb (S754_finite false mx ex) (S754_finite false my ey) = true ->
  ex <= ey /\ Z.pos mx <= Z.pos my * 2 ^ (ey - ex).
Proof.
  intros Hx Hy Hle. apply SFleb_finite in Hle as [Hlt | [-> Hm]].
  - split; [lia |].
    destruct (canonical_mantissa_lt mx ex Hx) as [Hmx Hemin].
    assert (Hdy : Zdigits2 (Z.pos my) = prec).
    { unfold SpecFloat.fexp in Hy. lia. }
    pose proof (mantissa_ge_pow my) as Hmy. rewrite Hdy in Hmy.
    assert (2 ^ 1 <= 2 ^ (ey - ex)) by (apply Z.pow_le_mono_r; lia).
    unfold prec in *. 
    change (2 ^ (53 - 1)) with 4503599627370496 in Hmy.
    change (2 ^ 53) with 9007199254740992 in Hmx.
    change (2 ^ 1) with 2 in H. nia.
  - split; [lia |]. rewrite Z.sub_diag. simpl. lia.
Qed.

Lemma SF_in_range_leb (mB : positive) (eB : Z) (r : spec_float) :
  SF_in_range mB eB r ->
  SFleb (S754_zero false) r = true /\ SFleb r (S754_finite false mB eB) = true.
Proof.
  destruct r as [s | s | | [] m e]; simpl; try contradiction.
  { intros _. split; reflexivity. }
  intros H. split; [reflexivity |]. unfold SFleb, SFcompare.
  destruct H as [H | [-> H]].
  - apply Z.compare_lt_iff in H. now rewrite H.
  - rewrite Z.compare_refl. fold (Pos.compare m mB).
    unfold Pos.le in H. destruct (m ?= mB)%positive; congruence.
Qed.

Lemma new_location_exact (nb : Z) : new_location nb 0 = loc_Exact.
Proof.
  unfold new_location, new_location_even, new_location_odd.
  now destruct (Z.even nb).
Qed.

Lemma SFdiv_le_one (mx my : positive) (ex ey : Z) :
  valid_binary (S754_finite false mx ex) = true ->
  valid_binary (S754_finite false my ey) = true ->
  SFleb (S754_finite false mx ex) (S754_finite false my ey) = true ->
  SF_in_range 4503599627370496 (-52)
    (SF64div (S754_finite false mx ex) (S754_finite false my ey)).
Proof.
  intros Vx Vy Hle.
  destruct (valid_binary_finite _ _ _ Vx) as [Cx _].
  destruct (valid_binary_finite _ _ _ Vy) as [Cy _].
  destruct (finite_le_scaled mx my ex ey Cx Cy Hle) as [Hexy Hval].
  unfold SF64div, SFdiv, SFdiv_core_binary. simpl xorb.
  set (e' := Z.min (fexp (Zdigits2 (Z.pos mx) + ex - (Zdigits2 (Z.pos my) + ey)))
                   (ex - ey)).
  assert (He' : e' <= -53).
  { pose proof (Zdigits2_le (Z.pos mx) _ (conj (Pos2Z.is_nonneg mx) Hval)) as Hd.
    rewrite Zdigits2_shift in Hd by lia.
    unfold e', SpecFloat.fexp, SpecFloat.emin, prec, emax. lia. }
  assert (Hs : 0 <= ex - ey - e') by (unfold e'; lia).
  set (m' := match ex - ey - e' with
             | Z.pos _ => Z.shiftl (Z.pos mx) (ex - ey - e')
             | 0 => Z.pos mx
             | Z.neg _ => 0
             end).
  assert (Hm' : m' = Z.pos mx * 2 ^ (ex - ey - e')).
  { unfold m'. destruct (ex - ey - e') as [| p | p] eqn:E.
    - simpl. lia.
    - now rewrite Z.shiftl_mul_pow2.
    - lia. }
  clearbody m'.
  pose proof (Z_div_mod m' (Z.pos my) ltac:(lia)) as Hdiv.
  destruct (Z.div_eucl m' (Z.pos my)) as [q r]. destruct Hdiv as [Hqr Hr].
  assert (Hp1 : 0 < 2 ^ (ex - ey - e')) by (apply Z.pow_pos_nonneg; lia).
  assert (Hp2 : 0 < 2 ^ (ey - ex)) by (apply Z.pow_pos_nonneg; lia).
  assert (Hbound : m' <= 2 ^ (- e') * Z.pos my).
  { replace (- e') with ((ey - ex) + (ex - ey - e')) by lia.
    rewrite Z.pow_add_r by lia. rewrite Hm'. nia. }
  assert (Hq0 : 0 <= q) by nia.
  assert (HK : 4503599627370496 * 2 ^ (-52 - e') = 2 ^ (- e')).
  { change 4503599627370496 with (2 ^ 52).
    rewrite <- Z.pow_add_r by lia. f_equal. lia. }
  apply (binary_round_aux_le q e' (new_location (Z.pos my) r)
           4503599627370496 (-52)).
  - reflexivity.
  - unfold emax, prec. lia.
  - exact Hq0.
  - lia.
  - rewrite HK. nia.
  - rewrite HK. intros Hloc.
    assert (r <> 0) by (intros ->; apply Hloc, new_location_exact).
    nia.
Qed.

Lemma SFmul_100_le (mq : positive) (eq : Z) :
  valid_binary (S754_finite false mq eq) = true ->
  SF_in_range 4503599627370496 (-52) (S754_finite false mq eq) ->
  SF_in_range 7036874417766400 (-46)
    (SF64mul (S754_finite false mq eq) (S754_finite false 7036874417766400 (-46))).
Proof.
  intros Vq Hq.
  destruct (valid_binary_finite _ _ _ Vq) as [Cq _].
  destruct (canonical_mantissa_lt mq eq Cq) as [Hmq _].
  unfold SF64mul, SFmul. simpl xorb.
  assert (Hle : eq <= -52 /\ Z.pos mq <= 2 ^ (- eq)).
  { unfold SF_in_range in Hq. destruct Hq as [Hlt | [-> Hm]].
    - split; [lia |].
      assert (H53 : 2 ^ 53 <= 2 ^ (- eq)) by (apply Z.pow_le_mono_r; lia).
      unfold prec in Hmq. lia.
    - split; [reflexivity |]. change (2 ^ (- -52)) with 4503599627370496.
      exact (Pos2Z.pos_le_pos _ _ Hm). }
  destruct Hle as [He Hm].
  assert (Hp : 0 < 2 ^ (- eq)) by (apply Z.pow_pos_nonneg; lia).
  apply (binary_round_aux_le (Z.pos (mq * 7036874417766400)) (eq + -46) loc_Exact
           7036874417766400 (-46)).
  - reflexivity.
  - unfold emax, prec. lia.
  - lia.
  - lia.
  - replace (-46 - (eq + -46)) with (- eq) by lia. 
    rewrite Pos2Z.inj_mul. nia.
  - intros H. now contradiction H.
Qed.

End Binary64.

(** *** From the primitive operations to their specification *)

Lemma Prim2SF_positive_finite (m : float) :
  (0 <? m) = true -> (m <? infinity) = true ->
  exists my ey, Prim2SF m = S754_finite false my ey.
Proof.
  rewrite !ltb_spec.
  change (Prim2SF 0) with (S754_zero false).
  change (Prim2SF infinity) with (S754_infinity false).
  destruct (Prim2SF m) as [sy | [] | | [] my ey]; try discriminate.
  intros _ _. eauto.
Qed.

Lemma Prim2SF_nonneg_below (s : float) (my : positive) (ey : Z) :
  (0 <=? s) = true ->
  SFleb (Prim2SF s) (S754_finite false my ey) = true ->
  (exists sx, Prim2SF s = S754_zero sx) \/
  (exists mx ex, Prim2SF s = S754_finite false mx ex).
Proof.
  rewrite leb_spec. change (Prim2SF 0) with (S754_zero false).
  destruct (Prim2SF s) as [sx | [] | | [] mx ex]; try discriminate; eauto.
Qed.

Lemma percentage_in_range (s m : float) :
  (0 <=? s) = true -> (s <=? m) = true ->
  (0 <? m) = true -> (m <? infinity) = true ->
  (0 <=? s / m * 100) = true /\ (s / m * 100 <=? 100) = true.
Proof.
  intros H0 Hsm Hm Hfin.
  destruct (Prim2SF_positive_finite m Hm Hfin) as (my & ey & Ey).
  pose proof (Prim2SF_valid m) as Vy. rewrite Ey in Vy.
  pose proof (Prim2SF_valid s) as Vx.
  pose proof (Prim2SF_valid (s / m)) as Vq.
  rewrite leb_spec, Ey in Hsm.
  rewrite div_spec, Ey in Vq.
  rewrite !leb_spec, mul_spec, div_spec, Ey.
  change (Prim2SF 0) with (S754_zero false).
  change (Prim2SF 100) with (S754_finite false 7036874417766400 (-46)).
  apply SF_in_range_leb.
  destruct (Prim2SF_nonneg_below s my ey H0 Hsm) as [[sx Ex] | (mx & ex & Ex)];
    rewrite Ex in *.
  - exact I.
  - pose proof (SFdiv_le_one mx my ex ey Vx Vy Hsm) as Hq.
    destruct (SF64div (S754_finite false mx ex) (S754_finite false my ey))
      as [sq | sq | | [] mq eq]; try contradiction.
    + exact I.
    + apply SFmul_100_le; assumption.
Qed.

Lemma positive_not_zero (m : float) : (0 <? m) = true -> (m =? 0) = false.
Proof.
  rewrite ltb_spec, FloatAxioms.eqb_spec. change (Prim2SF 0) with (S754_zero false).
  destruct (Prim2SF m) as [sy | [] | | [] my ey]; try discriminate; reflexivity.
Qed.

(** C7, as the program has it: the percentage is 0.0 when [max_points] is
    0; when [max_points] is positive it is [score / max_points * 100]; and
    when moreover [0 <= score <= max_points] and [max_points] is finite, it
    lies between 0 and 100. *)
Theorem get_percentage_bounds (a : Assignment.t) :
  ((Assignment.max_points a =? 0) = true ->
   Assignment.get_percentage a = 0) /\
  ((0 <? Assignment.max_points a) = true ->
   Assignment.get_percentage a
   = Assignment.score a / Assignment.max_points a * 100) /\
  ((0 <=? Assignment.score a) = true ->
   (Assignment.score a <=? Assignment.max_points a) = true ->
   (0 <? Assignment.max_points a) = true ->
   (Assignment.max_points a <? infinity) = true ->
   (0 <=? Assignment.get_percentage a) = true /\
   (Assignment.get_percentage a <=? 100) = true).
Proof.
  unfold Assignment.get_percentage. split; [| split].
  - intros ->. reflexivity.
  - intros H. now rewrite (positive_not_zero _ H).
  - intros H0 Hsm Hm Hfin. rewrite (positive_not_zero _ Hm).
    now apply percentage_in_range.
Qed.

Lemma get_percentage_bounds_witness :
  Assignment.get_percentage (Assignment.mk 0 1 1 "HW1" 8 10) = 80 /\
  Assignment.get_percentage (Assignment.mk 0 1 1 "HW1" 0 0) = 0 /\
  ((0 <=? Assignment.get_percentage (Assignment.mk 0 1 1 "HW1" 1 3)) = true /\
   (Assignment.get_percentage (Assignment.mk 0 1 1 "HW1" 1 3) <=? 100) = true) /\
  ((0 <=? Assignment.get_percentage (Assignment.mk 0 1 1 "HW1" 10 10)) = true /\
   (Assignment.get_percentage (Assignment.mk 0 1 1 "HW1" 10 10) <=? 100) = true).
Proof.
  destruct (get_percentage_bounds (Assignment.mk 0 1 1 "HW1" 8 10))
    as (_ & H1 & _).
  destruct (get_percentage_bounds (Assignment.mk 0 1 1 "HW1" 0 0))
    as (H2 & _ & _).
  destruct (get_percentage_bounds (Assignment.mk 0 1 1 "HW1" 1 3))
    as (_ & _ & H3).
  destruct (get_percentage_bounds (Assignment.mk 0 1 1 "HW1" 10 10))
    as (_ & _ & H4).
  split; [| split; [| split]].
  - rewrite H1; reflexivity.
  - apply H2. reflexivity.
  - apply H3; reflexivity.
  - apply H4; reflexivity.
Defined.

(** C7, as stated, fails: an infinite score out of infinitely many points
    meets [0 <= score <= max_points] and [max_points > 0], and its
    percentage is not a number: it is neither at least 0 nor at most 100. *)
Lemma get_percentage_of_infinity :
  (0 <=? Assignment.score assignment_inf) = true /\
  (Assignment.score assignment_inf <=? Assignment.max_points assignment_inf)
  = true /\
  (0 <? Assignment.max_points assignment_inf) = true /\
  (0 <=? Assignment.get_percentage assignment_inf) = false /\
  (Assignment.get_percentage assignment_inf <=? 100) = false.
Proof. repeat split. Qed.

(** * Further properties of the program *)

(** ** Adding a course *)

(** X1: [add_course] raises [ValueError] exactly when the name is empty or
    made of whitespace only, and then the state is the one before the call;
    otherwise it returns a new object, appended to the collection, with no
    assignment, the trimmed name and the identifier one above the largest
    identifier of the collection (1 when there is none), and rewrites the
    courses store, then the assignments store. *)
Theorem add_course_validation (self : t) (name : string) :
  ((exists msg, fst (add_course self name) = Raise (ValueError msg)) <->
   strip name = ""%string) /\
  (strip name = ""%string ->
   add_course self name
   = (Raise (ValueError "Course name cannot be empty"), self)) /\
  (strip name <> ""%string ->
   fst (add_course self name) = Return (length (heap self)) /\
   courses (snd (add_course self name)) = courses self ++ [length (heap self)] /\
   heap (snd (add_course self name))
   = heap self ++ [Course.mk (py_max (course_ids self) 0 + 1) (strip name) []] /\
   io (snd (add_course self name))
   = WriteAssignments (DataManager.assignment_rows
                         (course_objects (snd (add_course self name))))
     :: WriteCourses (DataManager.course_rows
                        (course_objects (snd (add_course self name))))
     :: io self) /\
  (course_ids self = [] -> (py_max (course_ids self) 0 + 1 = 1)%Z).
Proof.
  unfold add_course.
  destruct (String.eqb (strip name) "") eqn:E.
  - apply string_eqb_empty in E. simpl.
    split; [split; eauto |]. split; [reflexivity |].
    split; [contradiction | now intros ->].
  - assert (Hne : strip name <> ""%string).
    { intros H. apply string_eqb_empty in H. congruence. }
    simpl. split; [| split; [contradiction |]].
    + split; [intros [msg H]; discriminate | contradiction].
    + split; [| now intros ->]. intros _. repeat split.
Qed.

Lemma add_course_validation_witness :
  add_course gc3 "  "
  = (Raise (ValueError "Course name cannot be empty"), gc3) /\
  fst (add_course gc3 " Biology ") = Return 1%nat /\
  heap (snd (add_course gc3 " Biology "))
  = heap gc3 ++ [Course.mk 2 "Biology" []].
Proof.
  destruct (add_course_validation gc3 "  ") as (_ & H1 & _).
  destruct (add_course_validation gc3 " Biology ") as (_ & _ & H2 & _).
  destruct H2 as (Ha & _ & Hb & _); [discriminate |].
  split; [apply H1; reflexivity | split; [exact Ha | exact Hb]].
Defined.

(** ** Adding an assignment *)

(** X2: an assignment that [add_assignment] returns has an identifier above
    every assignment identifier of the collection, carries the identifier of
    the course it was added to, holds the score and the maximum points as
    given, and is the last of that course's list, the assignments before it
    unchanged. *)
Theorem add_assignment_id_exceeds (self : t) (course : cref) (co : Course.t)
    (name : string) (score max_points : float) :
  heap self !! course = Some co ->
  strip name <> ""%string ->
  (max_points <=? 0) = false -> (score <? 0) = false ->
  (max_points <? score) = false ->
  exists a,
    fst (add_assignment self course name score max_points) = Return a /\
    (forall b, In b (flat_map Course.assignments (course_objects self)) ->
               (Assignment.assignment_id b < Assignment.assignment_id a)%Z) /\
    Assignment.course_id a = Course.course_id co /\
    Assignment.score a = score /\ Assignment.max_points a = max_points /\
    heap (snd (add_assignment self course name score max_points)) !! course
    = Some (Course.mk (Course.course_id co) (Course.name co)
                      (Course.assignments co ++ [a])).
Proof.
  intros Hco Hname Hm Hs Hx. unfold add_assignment.
  destruct (String.eqb (strip name) "") eqn:E.
  { apply string_eqb_empty in E. contradiction. }
  rewrite Hm, Hs, Hx, Hco. eexists. split; [reflexivity |]. simpl.
  split; [| split; [reflexivity | split; [reflexivity | split; [reflexivity |]]]].
  - intros b Hb.
    apply (in_map Assignment.assignment_id) in Hb.
    apply (py_max_ge _ 0) in Hb. lia.
  - apply list_lookup_insert_eq. eapply lookup_lt_Some, Hco.
Qed.

Lemma add_assignment_id_exceeds_witness :
  exists a,
    fst (add_assignment gc_abf 2%nat "Final" 30 40) = Return a /\
    Assignment.assignment_id a = 5%Z /\ Assignment.course_id a = 3%Z.
Proof.
  destruct (add_assignment_id_exceeds gc_abf 2%nat (Course.mk 3 "Chemistry" [])
              "Final" 30 40) as (a & Ha & _ & Hc & _); try reflexivity;
    [discriminate |].
  exists a. split; [exact Ha | split; [| exact Hc]].
  vm_compute in Ha. now inversion Ha.
Defined.

(** ** Restarting the program *)

Lemma step_same_or_saved (self : t) (o : op) :
  step self o = self \/ exists s1, step self o = save_all_data s1.
Proof.
  destruct o as [name | course | course name score max_points | course a];
    simpl.
  - unfold add_course. destruct (String.eqb _ _); simpl; eauto.
  - unfold delete_course. destruct (py_in _ _ _); eauto.
  - unfold add_assignment.
    repeat match goal with
           | |- context [if ?b then _ else _] => destruct b; simpl; [now left |]
           end.
    destruct (heap self !! course); simpl; eauto.
  - unfold delete_assignment. destruct (heap self !! course); simpl; eauto.
Qed.

Lemma mirrors_run (ops : list op) (self : t) :
  mirrors self -> mirrors (run self ops).
Proof.
  unfold run. revert self.
  induction ops as [| o ops IH]; intros self H; simpl; [exact H |].
  apply IH. destruct (step_same_or_saved self o) as [-> | [s1 ->]];
    [exact H | reflexivity].
Qed.

(** X3: whatever calls were made since the program first started on no
    store, the stores hold the rows of the collection, and a new process
    started on them gets the same collection: the same courses in order,
    each with its identifier, name and assignments. *)
Theorem restart_preserves_collection (ops : list op) :
  let self := run (init (DataManager.mk None None)) ops in
  let view := fun co =>
    (Course.course_id co, Course.name co,
     map DataManager.row_of_assignment (Course.assignments co)) in
  files self
  = DataManager.mk
      (Some (DataManager.course_rows (course_objects self)))
      (Some (DataManager.assignment_rows (course_objects self))) /\
  map view (course_objects (init (files self)))
  = map view (course_objects self).
Proof.
  cbv zeta. set (self := run (init (DataManager.mk None None)) ops).
  assert (Hm : mirrors self) by (apply mirrors_run; reflexivity).
  assert (Hv : valid_collection self).
  { apply well_formed_valid, well_formed_run. split; [| split]; constructor. }
  split; [exact Hm |].
  unfold mirrors in Hm. rewrite Hm. unfold init.
  match goal with
  | |- context [load_all_data ?s] =>
      destruct (load_all_data_objects s) as (_ & _ & ->)
  end.
  simpl. destruct Hv as [Hnd Hval]. apply snapshot_linked; assumption.
Qed.

(** ** Grade points *)

(** X4: the grade points of a course are 4.0, 3.0, 2.0, 1.0 or 0.0, as its
    letter grade is A, B, C, D or F, and no other letter occurs; a course
    without assignments has the grade 0.0, the letter F and no grade
    point. *)
Theorem calculate_gpa_values (c : Course.t) :
  ((Course.get_letter_grade c = "A"%string /\ Course.calculate_gpa c = 4) \/
   (Course.get_letter_grade c = "B"%string /\ Course.calculate_gpa c = 3) \/
   (Course.get_letter_grade c = "C"%string /\ Course.calculate_gpa c = 2) \/
   (Course.get_letter_grade c = "D"%string /\ Course.calculate_gpa c = 1) \/
   (Course.get_letter_grade c = "F"%string /\ Course.calculate_gpa c = 0)) /\
  (Course.assignments c = [] ->
   Course.calculate_grade c = 0 /\
   Course.get_letter_grade c = "F"%string /\ Course.calculate_gpa c = 0).
Proof.
  split.
  - unfold Course.calculate_gpa, Course.get_letter_grade.
    destruct (90 <=? Course.calculate_grade c); [now left |].
    destruct (80 <=? Course.calculate_grade c); [now right; left |].
    destruct (70 <=? Course.calculate_grade c); [now right; right; left |].
    destruct (60 <=? Course.calculate_grade c);
      [now right; right; right; left | now right; right; right; right].
  - intros H. unfold Course.calculate_gpa, Course.get_letter_grade,
      Course.calculate_grade. rewrite H. repeat split.
Qed.

Lemma calculate_gpa_values_witness :
  Course.calculate_grade (Course.mk 4 "Drawing" []) = 0 /\
  Course.get_letter_grade (Course.mk 4 "Drawing" []) = "F"%string /\
  Course.calculate_gpa (Course.mk 4 "Drawing" []) = 0.
Proof.
  apply (calculate_gpa_values (Course.mk 4 "Drawing" [])). reflexivity.
Defined.

(** ** Creating the stores *)

(** X5: creating the stores a second time changes nothing; a store that
    exists keeps its rows; a store that was missing exists afterwards,
    without a row; and what is loaded after the creation is what would have
    been loaded before it, a missing store giving the empty list. *)
Theorem create_files_if_needed_idempotent (fs : DataManager.t) :
  DataManager.create_files_if_needed (DataManager.create_files_if_needed fs)
  = DataManager.create_files_if_needed fs /\
  (forall rows, DataManager.courses_file fs = Some rows ->
     DataManager.courses_file (DataManager.create_files_if_needed fs)
     = Some rows) /\
  (forall rows, DataManager.assignments_file fs = Some rows ->
     DataManager.assignments_file (DataManager.create_files_if_needed fs)
     = Some rows) /\
  (DataManager.courses_file fs = None ->
   DataManager.courses_file (DataManager.create_files_if_needed fs) = Some []
   /\ DataManager.load_courses fs = []) /\
  (DataManager.assignments_file fs = None ->
   DataManager.assignments_file (DataManager.create_files_if_needed fs)
   = Some [] /\ forall o, DataManager.load_assignments fs o = []) /\
  DataManager.load_courses (DataManager.create_files_if_needed fs)
  = DataManager.load_courses fs /\
  (forall o, DataManager.load_assignments
               (DataManager.create_files_if_needed fs) o
             = DataManager.load_assignments fs o).
Proof.
  unfold DataManager.create_files_if_needed, DataManager.load_courses,
    DataManager.load_assignments.
  destruct fs as [[c |] [a |]]; simpl; repeat split; intros;
    try congruence; try discriminate.
Qed.

Lemma create_files_if_needed_idempotent_witness :
  DataManager.courses_file
    (DataManager.create_files_if_needed stores_dangling)
  = Some [(1%Z, "Algebra"%string); (1%Z, "Algebra again"%string);
          (2%Z, "Biology"%string)] /\
  (DataManager.courses_file
     (DataManager.create_files_if_needed (DataManager.mk None None)) = Some []
   /\ DataManager.load_courses (DataManager.mk None None) = []).
Proof.
  destruct (create_files_if_needed_idempotent stores_dangling)
    as (_ & H1 & _).
  destruct (create_files_if_needed_idempotent (DataManager.mk None None))
    as (_ & _ & _ & H2 & _).
  split; [apply H1; reflexivity | apply H2; reflexivity].
Defined.

(** ** Deleting a course *)

Lemma In_id_member (h : list Course.t) (c : cref) (co : Course.t)
    (l : list cref) :
  py_in id c l = true -> h !! c = Some co ->
  In (Course.course_id co) (map Course.course_id (objects h l)).
Proof.
  intros Hin Hc. apply in_map. unfold py_in in Hin.
  apply existsb_exists in Hin as (y & Hy & E).
  apply Nat.eqb_eq in E. unfold id in E. subst y.
  now apply (In_objects h l c co).
Qed.

Lemma id_not_in_remaining (h : list Course.t) (c : cref) (co : Course.t)
    (l : list cref) :
  NoDup (map Course.course_id (objects h l)) ->
  py_in id c l = true -> h !! c = Some co ->
  ~ In (Course.course_id co)
       (map Course.course_id (objects h (py_remove id c l))).
Proof.
  intros Hnd Hin Hc. induction l as [| y l IH]; [discriminate |].
  simpl. rewrite objects_cons in Hnd. unfold py_in in Hin. simpl in Hin. 
  destruct (Nat.eqb y c) eqn:E.
  - apply Nat.eqb_eq in E. subst y. rewrite Hc in Hnd. simpl in Hnd.
    apply NoDup_cons in Hnd as [Hnotin _].
    intros H. apply Hnotin. now apply list_elem_of_In.
  - simpl in Hin. rewrite objects_cons.
    destruct (h !! y) as [coy |] eqn:Ey; simpl in Hnd |- *.
    + apply NoDup_cons in Hnd as [Hnotin Hnd].
      intros [Heq | H]; [| exact (IH Hnd Hin H)].
      apply Hnotin. rewrite Heq. apply list_elem_of_In.
      exact (In_id_member h c co l Hin Hc).
    + exact (IH Hnd Hin).
Qed.

(** X6: deleting a course of a well-formed collection takes its first
    occurrence out of the collection, leaves every object as it is, and
    rewrites both stores with the rows of the courses that remain: no row of
    the courses store and no row of the assignments store carries the
    identifier of the deleted course any more. *)
Theorem delete_course_cascades (self : t) (course : cref) (co : Course.t) :
  well_formed self ->
  heap self !! course = Some co ->
  py_in id course (courses self) = true ->
  courses (delete_course self course) = py_remove id course (courses self) /\
  heap (delete_course self course) = heap self /\
  (exists rc ra,
      files (delete_course self course) = DataManager.mk (Some rc) (Some ra) /\
      io (delete_course self course)
      = WriteAssignments ra :: WriteCourses rc :: io self /\
      rc = DataManager.course_rows (course_objects (delete_course self course)) /\
      ra = DataManager.assignment_rows
             (course_objects (delete_course self course)) /\
      (forall r, In r rc -> fst r <> Course.course_id co) /\
      (forall r, In r ra -> snd (fst (fst (fst r))) <> Course.course_id co)).
Proof.
  intros (Hlive & Hnd & Hown) Hco Hin. unfold delete_course. rewrite Hin.
  split; [reflexivity | split; [reflexivity |]].
  eexists _, _. split; [reflexivity |]. split; [reflexivity |].
  split; [reflexivity |]. split; [reflexivity |].
  unfold course_objects; simpl.
  pose proof (id_not_in_remaining _ _ _ _ Hnd Hin Hco) as Hfresh.
  set (rest := objects (heap self) (py_remove id course (courses self))) in *.
  assert (Hrest : Forall (fun co' =>
            Forall (fun a => Assignment.course_id a = Course.course_id co')
                   (Course.assignments co')) rest).
  { apply Forall_objects, Hown. }
  split.
  - intros r Hr Heq. apply Hfresh.
    unfold DataManager.course_rows in Hr.
    apply in_map_iff in Hr as (co' & <- & Hco').
    simpl in Heq. rewrite <- Heq. now apply in_map.
  - intros r Hr Heq. apply Hfresh.
    unfold DataManager.assignment_rows in Hr.
    apply in_flat_map in Hr as (co' & Hco' & Hr).
    apply in_map_iff in Hr as (a & <- & Ha).
    simpl in Heq.
    pose proof (proj1 (List.Forall_forall _ _) Hrest co' Hco') as Hown'.
    rewrite (proj1 (List.Forall_forall _ _) Hown' a Ha) in Heq.
    rewrite <- Heq. now apply in_map.
Qed.

Lemma delete_course_cascades_witness :
  courses (delete_course gc_abf 1%nat) = [0%nat; 2%nat] /\
  DataManager.assignments_file (files (delete_course gc_abf 1%nat))
  = Some [(1%Z, 1%Z, "HW1"%string, 9, 10); (3%Z, 1%Z, "HW2"%string, 19, 20)].
Proof.
  destruct (delete_course_cascades gc_abf 1%nat
              (Course.mk 2 "Biology"
                 [Assignment.mk 1 2 2 "Lab" 8 10;
                  Assignment.mk 3 4 2 "Quiz" 4 5]))
    as (H1 & _ & rc & ra & Hf & _ & _ & Hra & _).
  - split; [| split].
    + vm_compute. repeat constructor.
    + apply (bool_decide_unpack _). vm_compute. exact I.
    + vm_compute. repeat constructor.
  - reflexivity.
  - reflexivity.
  - split; [exact H1 |]. rewrite Hf. simpl. rewrite Hra. reflexivity.
Defined.

(** ** Deleting an assignment *)

Lemma py_remove_split {A} (k : A -> nat) (x : A) (l : list A) :
  py_in k x l = true ->
  exists l1 b l2,
    l = l1 ++ b :: l2 /\ k b = k x /\ py_in k x l1 = false /\
    py_remove k x l = l1 ++ l2.
Proof.
  unfold py_in. induction l as [| y l IH]; simpl; [discriminate |].
  destruct (Nat.eqb (k y) (k x)) eqn:E; simpl.
  - intros _. apply Nat.eqb_eq in E. exists [], y, l. auto.
  - intros H. destruct (IH H) as (l1 & b & l2 & -> & Hb & Hl1 & Hr).
    exists (y :: l1), b, l2. simpl. rewrite E, Hl1, Hr. auto.
Qed.

(** X7: deleting an assignment that is in the course's list takes out the
    first object of the list that is this assignment, and nothing else: the
    assignments before and after it stay, in order; every other course
    object is as before; and both stores are rewritten. *)
Theorem delete_assignment_removes (self : t) (course : cref) (co : Course.t)
    (a : Assignment.t) :
  heap self !! course = Some co ->
  py_in Assignment.obj a (Course.assignments co) = true ->
  exists l1 b l2,
    Course.assignments co = l1 ++ b :: l2 /\
    Assignment.obj b = Assignment.obj a /\
    py_in Assignment.obj a l1 = false /\
    heap (snd (delete_assignment self course a)) !! course
    = Some (Course.mk (Course.course_id co) (Course.name co) (l1 ++ l2)) /\
    (forall other : cref, other <> course ->
       heap (snd (delete_assignment self course a)) !! other
       = heap self !! other) /\
    courses (snd (delete_assignment self course a)) = courses self /\
    io (snd (delete_assignment self course a))
    = WriteAssignments
        (DataManager.assignment_rows
           (course_objects (snd (delete_assignment self course a))))
      :: WriteCourses
           (DataManager.course_rows
              (course_objects (snd (delete_assignment self course a))))
      :: io self.
Proof.
  intros Hco Hin.
  destruct (py_remove_split Assignment.obj a _ Hin)
    as (l1 & b & l2 & Hl & Hb & Hl1 & Hr).
  exists l1, b, l2. unfold delete_assignment. rewrite Hco. simpl.
  split; [exact Hl | split; [exact Hb | split; [exact Hl1 |]]].
  split; [| split; [| split; reflexivity]].
  - rewrite list_lookup_insert_eq by (eapply lookup_lt_Some, Hco).
    unfold Course.remove_assignment. now rewrite Hin, Hr.
  - intros other Hne. now apply list_lookup_insert_ne.
Qed.

Lemma delete_assignment_removes_witness :
  exists l1 b l2,
    Course.assignments course_hw = l1 ++ b :: l2 /\
    heap (snd (delete_assignment gc3 0%nat (Assignment.mk 0 1 1 "HW1" 8 10)))
      !! 0%nat
    = Some (Course.mk 1 "Algorithms" (l1 ++ l2)) /\
    l1 ++ l2 = [Assignment.mk 1 2 1 "HW2" 18 20].
Proof.
  destruct (delete_assignment_removes gc3 0%nat course_hw
              (Assignment.mk 0 1 1 "HW1" 8 10))
    as (l1 & b & l2 & Hl & _ & _ & Hh & _); try reflexivity.
  exists l1, b, l2. split; [exact Hl | split; [exact Hh |]].
  vm_compute in Hh. now inversion Hh.
Defined.

(** ** Identifiers of assignments *)

Lemma NoDup_shrink_middle {A} (x y y' z : list A) :
  (forall e, In e y' -> In e y) -> NoDup y' ->
  NoDup (x ++ y ++ z) -> NoDup (x ++ y' ++ z).
Proof.
  intros Hsub Hy'. rewrite !NoDup_app.
  intros (Hx & Hxyz & Hy & Hyz & Hz).
  split; [exact Hx |]. split.
  - intros e He Hin. apply (Hxyz e He).
    apply elem_of_app in Hin as [Hin | Hin]; apply elem_of_app; [left | now right].
    apply list_elem_of_In, Hsub, list_elem_of_In, Hin.
  - split; [exact Hy' |]. split; [| exact Hz].
    intros e He. apply Hyz. apply list_elem_of_In, Hsub, list_elem_of_In, He.
Qed.

Lemma NoDup_grow_middle {A} (x y z : list A) (n : A) :
  ~ In n (x ++ y ++ z) ->
  NoDup (x ++ y ++ z) -> NoDup (x ++ (y ++ [n]) ++ z).
Proof.
  intros Hn H.
  apply NoDup_app in H as (Hx & Hxyz & H).
  apply NoDup_app in H as (Hy & Hyz & Hz).
  assert (Hnx : ~ In n x) by (intros H; apply Hn, in_or_app; auto).
  assert (Hny : ~ In n y).
  { intros H. apply Hn, in_or_app. right. apply in_or_app. auto. }
  assert (Hnz : ~ In n z).
  { intros H. apply Hn, in_or_app. right. apply in_or_app. auto. }
  apply NoDup_app. split; [exact Hx |]. split.
  - intros e He Hin. apply elem_of_app in Hin as [Hin | Hin].
    + apply elem_of_app in Hin as [Hin | Hin].
      * apply (Hxyz e He), elem_of_app. now left.
      * apply list_elem_of_singleton in Hin. subst e.
        apply Hnx, list_elem_of_In, He.
    + apply (Hxyz e He), elem_of_app. now right.
  - apply NoDup_app. split; [| split; [| exact Hz]].
    + apply NoDup_app. split; [exact Hy |]. split; [| apply NoDup_singleton].
      intros e He Hin. apply list_elem_of_singleton in Hin. subst e.
      apply Hny, list_elem_of_In, He.
    + intros e He. apply elem_of_app in He as [He | He]; [now apply Hyz |].
      apply list_elem_of_singleton in He. subst e.
      intros H. apply Hnz, list_elem_of_In, H.
Qed.

Lemma objects_insert_notin (h : list Course.t) (c : cref) (x : Course.t)
    (l : list cref) :
  ~ In c l -> objects (<[c := x]> h) l = objects h l.
Proof.
  induction l as [| y l IH]; intros Hc; [reflexivity |].
  rewrite !objects_cons.
  rewrite list_lookup_insert_ne by (intros ->; apply Hc; now left).
  rewrite IH by (intros H; apply Hc; now right). reflexivity.
Qed.

Lemma objects_insert_split (h : list Course.t) (c : cref) (co x : Course.t)
    (l : list cref) :
  NoDup l -> In c l -> h !! c = Some co ->
  exists o1 o2,
    objects h l = o1 ++ co :: o2 /\
    objects (<[c := x]> h) l = o1 ++ x :: o2.
Proof.
  intros Hnd Hin Hc.
  apply list_elem_of_In, list_elem_of_split in Hin as (l1 & l2 & ->).
  apply NoDup_app in Hnd as (_ & Hl1 & Hnd).
  apply NoDup_cons in Hnd as [Hl2 _].
  exists (objects h l1), (objects h l2).
  rewrite !objects_app, !objects_cons, Hc.
  rewrite list_lookup_insert_eq by (eapply lookup_lt_Some, Hc).
  rewrite !objects_insert_notin; [auto | |].
  - intros H. apply Hl2. now apply list_elem_of_In.
  - intros H. apply list_elem_of_In in H. apply (Hl1 c H). now left.
Qed.

Lemma assignment_ids_of_app (o1 o2 : list Course.t) :
  assignment_ids_of (o1 ++ o2) = assignment_ids_of o1 ++ assignment_ids_of o2.
Proof. unfold assignment_ids_of. now rewrite flat_map_app, map_app. Qed.

Lemma assignment_ids_of_cons (co : Course.t) (os : list Course.t) :
  assignment_ids_of (co :: os)
  = map Assignment.assignment_id (Course.assignments co)
    ++ assignment_ids_of os.
Proof. unfold assignment_ids_of. simpl. now rewrite map_app. Qed.

Lemma NoDup_map_py_remove {A} (f : A -> Z) (k : A -> nat) (x : A) (l : list A) :
  NoDup (map f l) -> NoDup (map f (py_remove k x l)).
Proof.
  induction l as [| y l IH]; simpl; [auto |].
  intros H. apply NoDup_cons in H as [Hy Hl].
  destruct (Nat.eqb (k y) (k x)); [exact Hl |].
  simpl. apply NoDup_cons. split; [| auto].
  intros Hin. apply Hy. apply list_elem_of_In. apply list_elem_of_In in Hin.
  apply in_map_iff in Hin as (b & <- & Hb). apply in_map.
  clear - Hb. induction l as [| z l IHl]; simpl in *; [tauto |].
  destruct (Nat.eqb (k z) (k x)); [now right |].
  destruct Hb as [-> | Hb]; [now left | right; auto].
Qed.

Lemma In_map_py_remove {A} (f : A -> Z) (k : A -> nat) (x : A) (l : list A)
    (e : Z) :
  In e (map f (py_remove k x l)) -> In e (map f l).
Proof.
  induction l as [| y l IH]; simpl; [tauto |].
  destruct (Nat.eqb (k y) (k x)); [now right |].
  simpl. intros [H | H]; auto.
Qed.

Lemma ids_unique_step (self : t) (o : op) :
  ids_unique self -> ids_unique (step self o).
Proof.
  intros Hs. pose proof Hs as (Hlive & Hrefs & Hids).
  unfold assignment_ids, course_objects in Hids.
  destruct o as [name | course | course name score max_points | course a];
    simpl.
  - unfold add_course. destruct (String.eqb _ _); simpl; [exact Hs |].
    split; [| split]; simpl.
    + apply Forall_app. split.
      * eapply Forall_impl; [exact Hlive |]. intros c Hc. simpl in Hc.
        rewrite length_app. simpl. lia.
      * repeat constructor. rewrite length_app. simpl. lia.
    + apply NoDup_app. split; [exact Hrefs |]. split; [| apply NoDup_singleton].
      intros c Hc Hnew. apply list_elem_of_singleton in Hnew. subst c.
      pose proof (proj1 (Forall_forall _ _) Hlive _ Hc) as Hlt. simpl in Hlt. lia.
    + unfold assignment_ids, course_objects; simpl.
      rewrite objects_app, objects_snoc_heap by exact Hlive.
      rewrite (objects_cons (heap self ++ _)), lookup_snoc_new.
      rewrite assignment_ids_of_app, assignment_ids_of_cons. simpl.
      now rewrite app_nil_r.
  - unfold delete_course. destruct (py_in id course (courses self)) eqn:Hin;
      [| exact Hs].
    destruct (py_remove_split id course _ Hin)
      as (l1 & b & l2 & Hl & _ & _ & Hr).
    split; [| split]; simpl.
    + apply Forall_py_remove, Hlive.
    + rewrite Hr. rewrite Hl in Hrefs.
      apply (NoDup_shrink_middle l1 [b] [] l2); [intros e [] | constructor |].
      exact Hrefs.
    + unfold assignment_ids, course_objects; simpl. rewrite Hr.
      rewrite Hl in Hids. rewrite objects_app in *.
      change (b :: l2) with ([b] ++ l2) in Hids. rewrite objects_app in Hids.
      rewrite !assignment_ids_of_app in *.
      apply (NoDup_shrink_middle _ _ [] _ (fun e H => False_ind _ H)
               (NoDup_nil_2) Hids).
  - unfold add_assignment.
    repeat match goal with
           | |- context [if ?b then _ else _] => destruct b; simpl; [exact Hs |]
           end.
    destruct (heap self !! course) as [co |] eqn:E; simpl; [| exact Hs].
    split; [| split]; simpl; [now rewrite length_insert | exact Hrefs |].
    unfold assignment_ids, course_objects; simpl.
    destruct (in_dec Nat.eq_dec course (courses self)) as [Hin | Hnot].
    + match goal with
      | |- context [Assignment.mk _ ?n _ _ _ _] => set (newid := n)
      end.
      assert (Hfresh : ~ In newid (assignment_ids_of
                                     (objects (heap self) (courses self)))).
      { unfold newid, assignment_ids_of, course_objects. intros Hn.
        apply (py_max_ge _ 0) in Hn. lia. }
      clearbody newid.
      match goal with
      | |- context [<[course := ?x]> (heap self)] =>
          destruct (objects_insert_split (heap self) course co x
                      (courses self) Hrefs Hin E) as (o1 & o2 & H1 & H2)
      end.
      rewrite H2. rewrite H1 in Hids, Hfresh.
      rewrite assignment_ids_of_app, assignment_ids_of_cons in *.
      simpl. rewrite map_app. simpl.
      apply NoDup_grow_middle; [exact Hfresh | exact Hids].
    + rewrite objects_insert_notin by exact Hnot. exact Hids.
  - unfold delete_assignment.
    destruct (heap self !! course) as [co |] eqn:E; simpl; [| exact Hs].
    split; [| split]; simpl; [now rewrite length_insert | exact Hrefs |].
    unfold assignment_ids, course_objects; simpl.
    destruct (in_dec Nat.eq_dec course (courses self)) as [Hin | Hnot].
    + destruct (objects_insert_split (heap self) course co
                  (Course.remove_assignment co a)
                  (courses self) Hrefs Hin E) as (o1 & o2 & H1 & H2).
      rewrite H2. rewrite H1 in Hids.
      rewrite assignment_ids_of_app, assignment_ids_of_cons in *.
      assert (Hy : NoDup (map Assignment.assignment_id (Course.assignments co))).
      { apply NoDup_app in Hids as (_ & _ & Hids).
        now apply NoDup_app in Hids as (Hids & _). }
      unfold Course.remove_assignment.
      destruct (py_in Assignment.obj a (Course.assignments co)); [| exact Hids].
      simpl. eapply NoDup_shrink_middle; [| | exact Hids].
      * apply In_map_py_remove.
      * apply NoDup_map_py_remove, Hy.
    + rewrite objects_insert_notin by exact Hnot. exact Hids.
Qed.

Lemma ids_unique_run (ops : list op) (self : t) :
  ids_unique self -> ids_unique (run self ops).
Proof.
  unfold run. revert self.
  induction ops as [| o ops IH]; intros self H; simpl; [exact H |].
  apply IH, ids_unique_step, H.
Qed.

(** X8: whatever calls were made since the program first started on no
    store, no two courses of the collection share an identifier, no two
    assignments of the collection share an identifier, and the collection
    holds no course object twice. *)
Theorem identifiers_are_unique (ops : list op) :
  NoDup (course_ids (run (init (DataManager.mk None None)) ops)) /\
  NoDup (assignment_ids (run (init (DataManager.mk None None)) ops)) /\
  NoDup (courses (run (init (DataManager.mk None None)) ops)).
Proof.
  assert (Hw : well_formed (run (init (DataManager.mk None None)) ops)).
  { apply well_formed_run. split; [| split]; constructor. }
  assert (Hu : ids_unique (run (init (DataManager.mk None None)) ops)).
  { apply ids_unique_run. split; [| split]; constructor. }
  destruct Hw as (_ & Hc & _). destruct Hu as (_ & Hr & Ha). auto.
Qed.
